(** * Payment service: cart-payment adapter, transfer submission and the
    bank-update history repository.

    A shallow embedding of
    - [app/payout/repository/bankdb/payment_account_edit_history.py]
      (module [BankDB]),
    - [app/payin/api/cart_payment/v1/api.py] (module [CartPaymentApi]),
    - [app/payout/api/transfer/v1/api.py] (module [TransferApi]),
    followed by the properties of the specification that concern them. *)

From Stdlib Require Import ZArith Lia.
From stdpp Require Import base option list strings gmap.

Local Open Scope Z_scope.

(** ** Results of fallible code *)

(** A Python call either returns a value or raises. *)
Inductive result (E A : Type) : Type :=
| Ok (a : A)
| Raise (e : E).
Arguments Ok {E A} a.
Arguments Raise {E A} e.

(** ** Time *)

(** A [datetime] is counted in microseconds since [datetime.min]
    (0001-01-01 00:00:00); a [timedelta] is a signed number of
    microseconds. *)
Definition datetime := Z.
Definition timedelta := Z.

(** [datetime.max] is 9999-12-31 23:59:59.999999, the last microsecond of
    day 3652059. *)
Definition datetime_max : datetime := 3652059 * 86400 * 1000000 - 1.

(** [d - delta] on a datetime: Python raises [OverflowError] when the
    difference leaves the range of [datetime]. *)
Definition datetime_sub (d : datetime) (delta : timedelta) : option datetime :=
  let r := d - delta in
  if bool_decide (0 <= r <= datetime_max) then Some r else None.

(** * The bank-update history repository *)
Module BankDB.

(** ** Entities *)

(** Modelled from the spec: [BankUpdateHistoryOwnerType] of
    [app.payout.models], an enumeration of which the repository names the
    member [STORE]. *)
Inductive BankUpdateHistoryOwnerType : Type :=
| STORE
| OTHER_OWNER (name : string).

#[global] Instance BankUpdateHistoryOwnerType_eq_dec :
  EqDecision BankUpdateHistoryOwnerType.
Proof. solve_decision. Defined.

(** Modelled from the spec: the table [payment_account_edit_history] and
    its entity, whose declarations are in
    [bankdb/model/payment_account_edit_history.py].  The repository reads
    the columns [payment_account_id] (nullable), [owner_type] and
    [timestamp] (never null); [id] is generated by the server and [change]
    stands for the remaining columns, the change payload, which no query
    inspects. *)
Record PaymentAccountEditHistory : Type := {
  id : Z;
  timestamp : datetime;
  payment_account_id : option Z;
  owner_type : option BankUpdateHistoryOwnerType;
  change : list (string * string)
}.

(** The creation entity: every field may be left unset by the caller, the
    timestamp included. *)
Record PaymentAccountEditHistoryCreate : Type := {
  c_timestamp : option datetime;
  c_payment_account_id : option Z;
  c_owner_type : option BankUpdateHistoryOwnerType;
  c_change : list (string * string)
}.

(** ** A fragment of SQL, as the repository uses SQLAlchemy *)

Inductive column : Type :=
| col_id
| col_timestamp
| col_payment_account_id
| col_owner_type.

#[global] Instance column_eq_dec : EqDecision column.
Proof. solve_decision. Defined.

Inductive value : Type :=
| VNull
| VInt (n : Z)
| VTime (t : datetime)
| VOwner (o : BankUpdateHistoryOwnerType).

#[global] Instance value_eq_dec : EqDecision value.
Proof. solve_decision. Defined.

(** The value of a column in a row. *)
Definition col (c : column) (r : PaymentAccountEditHistory) : value :=
  match c with
  | col_id => VInt (id r)
  | col_timestamp => VTime (timestamp r)
  | col_payment_account_id => from_option VInt VNull (payment_account_id r)
  | col_owner_type => from_option VOwner VNull (owner_type r)
  end.

(** Column expressions: [c.isnot(None)], [c == v], [c.__gt__(v)],
    [c.__ge__(v)], [c.__le__(v)]. *)
Inductive clause : Type :=
| isnot_None (c : column)
| eq_ (c : column) (v : value)
| gt_ (c : column) (v : value)
| ge_ (c : column) (v : value)
| le_ (c : column) (v : value).

(** [and_(...)] is a list of clauses, which [query.clauses.append] extends
    in place. *)
Record BooleanClauseList : Type := and_ { clauses : list clause }.

Definition clauses_append (q : BooleanClauseList) (c : clause)
  : BooleanClauseList :=
  and_ (clauses q ++ [c]).

(** The order of two values of one type; [None] when one of them is NULL
    or the two are not ordered against each other. *)
Definition sql_compare (a b : value) : option comparison :=
  match a, b with
  | VInt x, VInt y => Some (x ?= y)
  | VTime x, VTime y => Some (x ?= y)
  | _, _ => None
  end.

(** Equality in SQL: unknown ([None]) as soon as one side is NULL. *)
Definition sql_eq (a b : value) : option bool :=
  match a, b with
  | VNull, _ | _, VNull => None
  | _, _ => Some (bool_decide (a = b))
  end.

(** A clause on a row, in SQL's three-valued logic. *)
Definition eval_clause (c : clause) (r : PaymentAccountEditHistory)
  : option bool :=
  match c with
  | isnot_None k => Some (bool_decide (col k r <> VNull))
  | eq_ k v => sql_eq (col k r) v
  | gt_ k v =>
      o ← sql_compare (col k r) v;
      Some (match o with Gt => true | _ => false end)
  | ge_ k v =>
      o ← sql_compare (col k r) v;
      Some (match o with Lt => false | _ => true end)
  | le_ k v =>
      o ← sql_compare (col k r) v;
      Some (match o with Gt => false | _ => true end)
  end.

(** Three-valued conjunction. *)
Definition and3 (a b : option bool) : option bool :=
  match a, b with
  | Some false, _ | _, Some false => Some false
  | Some true, Some true => Some true
  | _, _ => None
  end.

Fixpoint eval_and (cs : list clause) (r : PaymentAccountEditHistory)
  : option bool :=
  match cs with
  | [] => Some true
  | c :: cs' => and3 (eval_clause c r) (eval_and cs' r)
  end.

(** [WHERE q] keeps the rows on which [q] is true (neither false nor
    unknown). *)
Definition holds (q : BooleanClauseList) (r : PaymentAccountEditHistory)
  : bool :=
  bool_decide (eval_and (clauses q) r = Some true).

(** [ORDER BY c DESC]: [a] may come before [b].  NULLs come first in a
    descending order. *)
Definition desc_before (a b : value) : bool :=
  match a, b with
  | VNull, _ => true
  | _, VNull => false
  | _, _ =>
      match sql_compare a b with
      | Some Lt => false
      | _ => true
      end
  end.

(** A stable insertion sort; rows with equal keys keep the order of the
    table. *)
Fixpoint insert_desc (c : column) (r : PaymentAccountEditHistory)
    (l : list PaymentAccountEditHistory) : list PaymentAccountEditHistory :=
  match l with
  | [] => [r]
  | x :: l' =>
      if desc_before (col c r) (col c x) then r :: l
      else x :: insert_desc c r l'
  end.

Definition order_by_desc (c : column) (l : list PaymentAccountEditHistory)
  : list PaymentAccountEditHistory :=
  foldr (insert_desc c) [] l.

(** [DISTINCT ON (c)]: the first row of every group of rows with one value
    of [c]. *)
Fixpoint distinct_on (c : column) (seen : list value)
    (l : list PaymentAccountEditHistory) : list PaymentAccountEditHistory :=
  match l with
  | [] => []
  | r :: l' =>
      if bool_decide (col c r ∈ seen) then distinct_on c seen l'
      else r :: distinct_on c (col c r :: seen) l'
  end.

(** The parameters of an insert: a value for some of the columns. *)
Record parameters : Type := {
  p_id : option Z;
  p_timestamp : option datetime;
  p_payment_account_id : option Z;
  p_owner_type : option BankUpdateHistoryOwnerType;
  p_change : list (string * string)
}.

(** [data.dict(skip_defaults=True)]: the fields the caller has set. *)
Definition dict_skip_defaults (data : PaymentAccountEditHistoryCreate)
  : parameters :=
  {| p_id := None;
     p_timestamp := c_timestamp data;
     p_payment_account_id := c_payment_account_id data;
     p_owner_type := c_owner_type data;
     p_change := c_change data |}.

(** Keyword arguments of [values]: here only [timestamp=...] occurs. *)
Record kwargs : Type := { kw_timestamp : option datetime }.

(** [insert().values(d, **kw)]: SQLAlchemy takes the dictionary and then
    updates it with the keyword arguments, so a keyword replaces the entry
    of the dictionary for the same column. *)
Definition values (d : parameters) (kw : kwargs) : parameters :=
  {| p_id := p_id d;
     p_timestamp :=
       match kw_timestamp kw with
       | Some t => Some t
       | None => p_timestamp d
       end;
     p_payment_account_id := p_payment_account_id d;
     p_owner_type := p_owner_type d;
     p_change := p_change d |}.

Inductive statement : Type :=
| select_where (q : BooleanClauseList)
| select_where_order_by_desc (q : BooleanClauseList) (c : column)
| select_distinct_where (c : column) (q : BooleanClauseList)
| insert_returning (p : parameters).

(** ** The database *)

(** The table in insertion order, and the sequence behind the [id]
    column.  The replica is taken to be in step with the master. *)
Record Database : Type := {
  rows : list PaymentAccountEditHistory;
  id_seq : Z
}.

Inductive exn : Type :=
| OverflowError
| IntegrityError
| AssertionError.

(** The row an insert stores: [id] defaults to the next value of the
    sequence, [timestamp] must be given. *)
Definition new_row (p : parameters) (db : Database)
  : option PaymentAccountEditHistory :=
  t ← p_timestamp p;
  Some {| id := default (id_seq db) (p_id p);
          timestamp := t;
          payment_account_id := p_payment_account_id p;
          owner_type := p_owner_type p;
          change := p_change p |}.

(** Running a statement: the rows it returns and the database after. *)
Definition execute (stmt : statement) (db : Database)
  : result exn (list PaymentAccountEditHistory) * Database :=
  match stmt with
  | select_where q => (Ok (List.filter (holds q) (rows db)), db)
  | select_where_order_by_desc q c =>
      (Ok (order_by_desc c (List.filter (holds q) (rows db))), db)
  | select_distinct_where c q =>
      (Ok (distinct_on c [] (List.filter (holds q) (rows db))), db)
  | insert_returning p =>
      match new_row p db with
      | Some r =>
          (Ok [r],
           {| rows := rows db ++ [r];
              id_seq :=
                match p_id p with
                | Some _ => id_seq db
                | None => id_seq db + 1
                end |})
      | None => (Raise IntegrityError, db)
      end
  end.

Definition fetch_all := execute.

(** [fetch_one]: the first row of the result, or [None]. *)
Definition fetch_one (stmt : statement) (db : Database)
  : result exn (option PaymentAccountEditHistory) * Database :=
  match execute stmt db with
  | (Ok l, db') => (Ok (head l), db')
  | (Raise e, db') => (Raise e, db')
  end.

(** ** The repository *)

(** [now] is the reading of [datetime.utcnow()] during the call. *)
Definition get_most_recent_bank_update (now : datetime)
    (payment_account_id : Z) (within_last_timedelta : option timedelta)
    (db : Database)
  : result exn (option PaymentAccountEditHistory) * Database :=
  let query :=
    and_ [ isnot_None col_payment_account_id;
           eq_ col_payment_account_id (VInt payment_account_id) ] in
  (* [if within_last_timedelta:] is false for [None] and for the zero
     timedelta *)
  let appended :=
    match within_last_timedelta with
    | Some delta =>
        if delta =? 0 then Ok query
        else
          match datetime_sub now delta with
          | Some since_date =>
              Ok (clauses_append query (gt_ col_timestamp (VTime since_date)))
          | None => Raise OverflowError
          end
    | None => Ok query
    end in
  match appended with
  | Ok query =>
      fetch_one (select_where_order_by_desc query col_timestamp) db
  | Raise e => (Raise e, db)
  end.

Definition get_recent_bank_update_payment_account_ids
    (last_bank_account_update_allowed_at : datetime) (db : Database)
  : result exn (list (option Z)) * Database :=
  let stmt :=
    select_distinct_where col_payment_account_id
      (and_ [ ge_ col_timestamp (VTime last_bank_account_update_allowed_at) ])
  in
  match execute stmt db with
  | (Ok rws, db') => (Ok (map payment_account_id rws), db')
  | (Raise e, db') => (Raise e, db')
  end.

Definition get_bank_updates_for_store_with_payment_account_and_time_range
    (payment_account_id : Z) (start_time end_time : datetime) (db : Database)
  : result exn (list PaymentAccountEditHistory) * Database :=
  let query :=
    and_ [ eq_ col_payment_account_id (VInt payment_account_id);
           eq_ col_owner_type (VOwner STORE);
           ge_ col_timestamp (VTime start_time);
           le_ col_timestamp (VTime end_time) ] in
  match fetch_all (select_where query) db with
  | (Ok rws, db') =>
      (match rws with
       | _ :: _ => Ok rws
       | [] => Ok []
       end, db')
  | (Raise e, db') => (Raise e, db')
  end.

Definition record_bank_update (now : datetime)
    (data : PaymentAccountEditHistoryCreate) (db : Database)
  : result exn PaymentAccountEditHistory * Database :=
  let ts_now := now in
  let stmt :=
    insert_returning
      (values (dict_skip_defaults data) {| kw_timestamp := Some ts_now |}) in
  match fetch_one stmt db with
  | (Ok (Some row), db') => (Ok row, db')
  | (Ok None, db') => (Raise AssertionError, db')
  | (Raise e, db') => (Raise e, db')
  end.

End BankDB.

(** * The cart-payment adapter *)
Module CartPaymentApi.

(** A Python value of the kinds the optional attributes of a request
    hold. *)
Inductive pyval : Type :=
| PyNone
| PyInt (n : Z)
| PyStr (s : string).

#[global] Instance pyval_eq_dec : EqDecision pyval.
Proof. solve_decision. Defined.

Definition UUID := Z.

(** [uuid4()] draws the next identifier of a supply; two draws never give
    the same identifier. *)
Definition uuid4 (supply : Z) : UUID * Z := (supply, supply + 1).

(** Modelled from the spec: [CartType] of [app.payin.core.cart_payment.model],
    the kinds of cart, [ORDER_CART] among them. *)
Inductive CartType : Type :=
| ORDER_CART
| OTHER_CART (name : string).

#[global] Instance CartType_eq_dec : EqDecision CartType.
Proof. solve_decision. Defined.

(** [CartType(x)] on a member of the enumeration is that member. *)
Definition CartType_of (x : CartType) : CartType := x.

(** Modelled from the spec: [PayinErrorCode] of [app.payin.core.exceptions].
    The adapter names two members; the others are the error classes of the
    specification. *)
Inductive PayinErrorCode : Type :=
| PAYMENT_METHOD_GET_NOT_FOUND
| PAYMENT_METHOD_GET_PAYER_PAYMENT_METHOD_MISMATCH
| ValidationError
| NotFoundError
| OwnershipMismatchError
| ConflictError
| GatewayError
| OTHER_ERROR (name : string).

#[global] Instance PayinErrorCode_eq_dec : EqDecision PayinErrorCode.
Proof. solve_decision. Defined.

(** [app.commons.error.errors] *)
Record PaymentError : Type := {
  pe_error_code : PayinErrorCode;
  pe_error_message : string;
  pe_retryable : bool
}.

Record PaymentException : Type := {
  http_status_code : Z;
  error_code : PayinErrorCode;
  error_message : string;
  retryable : bool
}.

(** [starlette.status] *)
Definition HTTP_400_BAD_REQUEST : Z := 400.
Definition HTTP_403_FORBIDDEN : Z := 403.
Definition HTTP_500_INTERNAL_SERVER_ERROR : Z := 500.

(** Modelled from the spec: the entities of
    [app.payin.core.cart_payment.model]. *)
Module model.

Record CartMetadata : Type := {
  reference_id : Z;
  ct_reference_id : Z;
  type : CartType
}.

Record LegacyPayment : Type := {
  consumer_id : pyval;
  charge_id : pyval;
  stripe_customer_id : pyval
}.

Record SplitPayment : Type := {
  payout_account_id : pyval;
  application_fee_amount : pyval
}.

Record CartPayment : Type := {
  id : UUID;
  payer_id : string;
  amount : Z;
  payment_method_id : string;
  capture_method : string;
  cart_metadata : CartMetadata;
  client_description : option string;
  payer_statement_description : option string;
  legacy_payment : option LegacyPayment;
  split_payment : option SplitPayment;
  created_at : option datetime;
  updated_at : option datetime
}.

#[global] Instance CartMetadata_eq_dec : EqDecision CartMetadata.
Proof. solve_decision. Defined.
#[global] Instance LegacyPayment_eq_dec : EqDecision LegacyPayment.
Proof. solve_decision. Defined.
#[global] Instance SplitPayment_eq_dec : EqDecision SplitPayment.
Proof. solve_decision. Defined.

End model.

(** Modelled from the spec: the request bodies of
  [app.payin.api.cart_payment.v1.request].  The optional sections
  [legacy_payment], [split_payment] and (on an update) [metadata] are
  [None] when the request omits them. *)
Module request.

Record CartMetadata : Type := {
  reference_id : Z;
  ct_reference_id : Z;
  type : CartType
}.

Record LegacyPayment : Type := {
  consumer_id : pyval;
  charge_id : pyval;
  stripe_customer_id : pyval
}.

Record SplitPayment : Type := {
  payout_account_id : pyval;
  application_fee_amount : pyval
}.

(** The attributes of the two optional sections, by name; [None] when
    the object has no attribute of that name. *)
Definition LegacyPayment_attr (o : LegacyPayment) (name : string)
  : option pyval :=
  if decide (name = "consumer_id") then Some (consumer_id o)
  else if decide (name = "charge_id") then Some (charge_id o)
  else if decide (name = "stripe_customer_id")
       then Some (stripe_customer_id o)
  else None.

Definition SplitPayment_attr (o : SplitPayment) (name : string)
  : option pyval :=
  if decide (name = "payout_account_id") then Some (payout_account_id o)
  else if decide (name = "application_fee_amount")
       then Some (application_fee_amount o)
  else None.

End request.

Module CreateCartPaymentRequest.
Record t : Type := {
  payer_id : string;
  amount : Z;
  payment_method_id : string;
  capture_method : string;
  metadata : request.CartMetadata;
  client_description : option string;
  payer_statement_description : option string;
  legacy_payment : option request.LegacyPayment;
  split_payment : option request.SplitPayment;
  idempotency_key : string;
  country : string;
  currency : string;
  payer_id_type : option string;
  payment_method_id_type : option string
}.
End CreateCartPaymentRequest.

Module UpdateCartPaymentRequest.
Record t : Type := {
  idempotency_key : string;
  payer_id : string;
  amount : Z;
  client_description : option string;
  payer_statement_description : option string;
  legacy_payment : option request.LegacyPayment;
  metadata : option request.CartMetadata
}.
End UpdateCartPaymentRequest.

(** [getattr(obj, name, default)]: the attribute when [obj] has one of that
    name, [default] otherwise; [None] has none of the names asked for. *)
Definition getattr {T : Type} (attr : T -> string -> option pyval)
    (obj : option T) (name : string) (default : pyval) : pyval :=
  match obj with
  | Some o =>
      match attr o name with
      | Some v => v
      | None => default
      end
  | None => default
  end.

(** ** The processor, as the adapter sees it *)

(** [CartPaymentProcessor]: the two operations the adapter calls, over the
    durable state [S] of the processor. *)
Record CartPaymentProcessor (S : Type) : Type := {
  submit_payment :
    model.CartPayment (* request_cart_payment *) ->
    string (* idempotency_key *) ->
    string (* country *) ->
    string (* currency *) ->
    option string (* client_description *) ->
    option string (* payer_id_type *) ->
    option string (* payment_method_id_type *) ->
    S -> result PaymentError model.CartPayment * S;
  update_payment :
    string (* idempotency_key *) ->
    UUID (* cart_payment_id *) ->
    string (* payer_id *) ->
    Z (* amount *) ->
    option model.LegacyPayment (* legacy_payment *) ->
    option string (* client_description *) ->
    option string (* payer_statement_description *) ->
    option model.CartMetadata (* metadata *) ->
    S -> result PaymentError model.CartPayment * S
}.
Arguments submit_payment {S} _.
Arguments update_payment {S} _.

(** What a route of the adapter raises. *)
Inductive api_exn : Type :=
| raise_PaymentException (e : PaymentException)
| raise_PaymentError (e : PaymentError).

(** The adapter runs against the supply of [uuid4] and the state of the
    processor. *)
Record World (S : Type) : Type := {
  uuid_supply : Z;
  store : S
}.
Arguments uuid_supply {S} _.
Arguments store {S} _.
Arguments Build_World {S} _ _.

(** ** The adapter *)

Definition request_to_model (cart_payment_request : CreateCartPaymentRequest.t)
    (supply : Z) : model.CartPayment * Z :=
  let '(fresh, supply') := uuid4 supply in
  ({| model.id := fresh;
      model.payer_id := CreateCartPaymentRequest.payer_id cart_payment_request;
      model.amount := CreateCartPaymentRequest.amount cart_payment_request;
      model.payment_method_id :=
        CreateCartPaymentRequest.payment_method_id cart_payment_request;
      model.capture_method :=
        CreateCartPaymentRequest.capture_method cart_payment_request;
      model.cart_metadata :=
        {| model.reference_id :=
             request.reference_id
               (CreateCartPaymentRequest.metadata cart_payment_request);
           model.ct_reference_id :=
             request.ct_reference_id
               (CreateCartPaymentRequest.metadata cart_payment_request);
           model.type :=
             CartType_of
               (request.type
                  (CreateCartPaymentRequest.metadata cart_payment_request)) |};
      model.client_description :=
        CreateCartPaymentRequest.client_description cart_payment_request;
      model.payer_statement_description :=
        CreateCartPaymentRequest.payer_statement_description
          cart_payment_request;
      model.legacy_payment :=
        Some
          {| model.consumer_id :=
               getattr request.LegacyPayment_attr
                 (CreateCartPaymentRequest.legacy_payment cart_payment_request)
                 "consumer_id" PyNone;
             model.charge_id :=
               getattr request.LegacyPayment_attr
                 (CreateCartPaymentRequest.legacy_payment cart_payment_request)
                 "charge_id" PyNone;
             model.stripe_customer_id :=
               getattr request.LegacyPayment_attr
                 (CreateCartPaymentRequest.legacy_payment cart_payment_request)
                 "stripe_customer_id" PyNone |};
      model.split_payment :=
        Some
          {| model.payout_account_id :=
               getattr request.SplitPayment_attr
                 (CreateCartPaymentRequest.split_payment cart_payment_request)
                 "payout_account_id" PyNone;
             model.application_fee_amount :=
               getattr request.SplitPayment_attr
                 (CreateCartPaymentRequest.split_payment cart_payment_request)
                 "appication_fee_amount" PyNone |};
      model.created_at := None;
      model.updated_at := None |},
   supply').

(** [if not cart_payment_request.legacy_payment]: a request section is a
    model object, which is true in a condition; only [None] is false. *)
Definition get_legacy_payment_model
    (cart_payment_request : UpdateCartPaymentRequest.t)
  : option model.LegacyPayment :=
  match UpdateCartPaymentRequest.legacy_payment cart_payment_request with
  | None => None
  | Some legacy_payment =>
      Some {| model.consumer_id := request.consumer_id legacy_payment;
              model.stripe_customer_id :=
                request.stripe_customer_id legacy_payment;
              model.charge_id := request.charge_id legacy_payment |}
  end.

Definition get_cart_payment_metadata_model
    (cart_payment_request : UpdateCartPaymentRequest.t)
  : option model.CartMetadata :=
  match UpdateCartPaymentRequest.metadata cart_payment_request with
  | None => None
  | Some metadata =>
      Some {| model.reference_id := request.reference_id metadata;
              model.ct_reference_id := request.ct_reference_id metadata;
              model.type := request.type metadata |}
  end.

Section Adapter.

Context {S : Type} (cart_payment_processor : CartPaymentProcessor S).

Definition create_cart_payment
    (cart_payment_request : CreateCartPaymentRequest.t) (w : World S)
  : result api_exn model.CartPayment * World S :=
  let '(request_cart_payment, supply') :=
    request_to_model cart_payment_request (uuid_supply w) in
  match
    submit_payment cart_payment_processor
      request_cart_payment
      (CreateCartPaymentRequest.idempotency_key cart_payment_request)
      (CreateCartPaymentRequest.country cart_payment_request)
      (CreateCartPaymentRequest.currency cart_payment_request)
      (CreateCartPaymentRequest.client_description cart_payment_request)
      (CreateCartPaymentRequest.payer_id_type cart_payment_request)
      (CreateCartPaymentRequest.payment_method_id_type cart_payment_request)
      (store w)
  with
  | (Ok cart_payment, st) => (Ok cart_payment, Build_World supply' st)
  | (Raise payment_error, st) =>
      let http_status_code :=
        if decide (pe_error_code payment_error
                   = PAYMENT_METHOD_GET_NOT_FOUND)
        then HTTP_400_BAD_REQUEST
        else if decide (pe_error_code payment_error
                        = PAYMENT_METHOD_GET_PAYER_PAYMENT_METHOD_MISMATCH)
        then HTTP_403_FORBIDDEN
        else HTTP_500_INTERNAL_SERVER_ERROR in
      (Raise
         (raise_PaymentException
            {| http_status_code := http_status_code;
               error_code := pe_error_code payment_error;
               error_message := pe_error_message payment_error;
               retryable := pe_retryable payment_error |}),
       Build_World supply' st)
  end.

Definition update_cart_payment (cart_payment_id : UUID)
    (cart_payment_request : UpdateCartPaymentRequest.t) (w : World S)
  : result api_exn model.CartPayment * World S :=
  match
    update_payment cart_payment_processor
      (UpdateCartPaymentRequest.idempotency_key cart_payment_request)
      cart_payment_id
      (UpdateCartPaymentRequest.payer_id cart_payment_request)
      (UpdateCartPaymentRequest.amount cart_payment_request)
      (get_legacy_payment_model cart_payment_request)
      (UpdateCartPaymentRequest.client_description cart_payment_request)
      (UpdateCartPaymentRequest.payer_statement_description
         cart_payment_request)
      (get_cart_payment_metadata_model cart_payment_request)
      (store w)
  with
  | (Ok cart_payment, st) =>
      (Ok cart_payment, Build_World (uuid_supply w) st)
  | (Raise payment_error, st) =>
      (Raise (raise_PaymentError payment_error),
       Build_World (uuid_supply w) st)
  end.

End Adapter.

End CartPaymentApi.

(** * The cart-payment processor *)
Module CartPaymentCore.
Import CartPaymentApi.

(** Modelled from the spec: the payment-method lookup collaborator,
    [resolve(payment_method_id, payer_id)], which gives a method reference
    or fails with not-found or ownership-mismatch. *)
Inductive lookup_result : Type :=
| MethodRef (ref : string)
| NOT_FOUND
| OWNERSHIP_MISMATCH.

(** Modelled from the spec: the outcome of the compensating adjustment the
    gateway collaborator makes when an update changes the amount. *)
Inductive adjustment : Type :=
| Adjusted
| AdjustmentFailed (retryable : bool).

(** Modelled from the spec: the repository of cart payments, which is not
    among the sources.  Each row is stored with the idempotency key of the
    call that created it; [clock] is the time the server stamps on a
    write. *)
Record Repository : Type := {
  cart_payments : list (string * model.CartPayment);
  clock : datetime
}.

Definition get_by_idempotency_key (key : string) (s : Repository)
  : option model.CartPayment :=
  snd <$> List.find (fun row => bool_decide (fst row = key)) (cart_payments s).

Definition get_by_id (cart_payment_id : UUID) (s : Repository)
  : option model.CartPayment :=
  List.find (fun cp => bool_decide (model.id cp = cart_payment_id))
    (map snd (cart_payments s)).

Definition insert_row (key : string) (cp : model.CartPayment) (s : Repository)
  : Repository :=
  {| cart_payments := cart_payments s ++ [(key, cp)]; clock := clock s |}.

Definition update_row (cp : model.CartPayment) (s : Repository) : Repository :=
  {| cart_payments :=
       map (fun row =>
              if bool_decide (model.id (snd row) = model.id cp)
              then (fst row, cp) else row)
           (cart_payments s);
     clock := clock s |}.

(** The payload of a creation: what the client sent, without the
    identifier and the timestamps, which the server generates. *)
Definition payload (cp : model.CartPayment) :=
  (model.payer_id cp, model.amount cp, model.payment_method_id cp,
   model.capture_method cp, model.cart_metadata cp,
   model.client_description cp, model.payer_statement_description cp,
   model.legacy_payment cp, model.split_payment cp).

Definition same_payload (a b : model.CartPayment) : bool :=
  bool_decide (payload a = payload b).

Definition payment_error (code : PayinErrorCode) (message : string)
    (retry : bool) : PaymentError :=
  {| pe_error_code := code; pe_error_message := message;
     pe_retryable := retry |}.

Section Processor.

Variable resolve : string -> string -> lookup_result.
Variable adjust : model.CartPayment -> Z -> adjustment.

(** Modelled from the spec: [CartPaymentProcessor.submit_payment] of
    [app.payin.core.cart_payment.processor] (section 4.1).  The amount must
    not be negative and the payment method must resolve to one the payer
    owns; when the idempotency key already has a stored result that result
    is returned unchanged (a different payload is a conflict); otherwise
    one new row is written and returned. *)
Definition submit_payment_model
    (request_cart_payment : model.CartPayment) (idempotency_key : string)
    (country currency : string)
    (client_description payer_id_type payment_method_id_type : option string)
    (s : Repository) : result PaymentError model.CartPayment * Repository :=
  if model.amount request_cart_payment <? 0 then
    (Raise (payment_error ValidationError "amount is negative" false), s)
  else
    match resolve (model.payment_method_id request_cart_payment)
                  (model.payer_id request_cart_payment) with
    | NOT_FOUND =>
        (Raise (payment_error PAYMENT_METHOD_GET_NOT_FOUND
                  "payment method not found" false), s)
    | OWNERSHIP_MISMATCH =>
        (Raise (payment_error PAYMENT_METHOD_GET_PAYER_PAYMENT_METHOD_MISMATCH
                  "payment method not owned by payer" false), s)
    | MethodRef _ =>
        match get_by_idempotency_key idempotency_key s with
        | Some stored =>
            if same_payload stored request_cart_payment then (Ok stored, s)
            else
              (Raise (payment_error ConflictError
                        "idempotency key used with another payload" false), s)
        | None =>
            let created :=
              {| model.id := model.id request_cart_payment;
                 model.payer_id := model.payer_id request_cart_payment;
                 model.amount := model.amount request_cart_payment;
                 model.payment_method_id :=
                   model.payment_method_id request_cart_payment;
                 model.capture_method :=
                   model.capture_method request_cart_payment;
                 model.cart_metadata :=
                   model.cart_metadata request_cart_payment;
                 model.client_description :=
                   model.client_description request_cart_payment;
                 model.payer_statement_description :=
                   model.payer_statement_description request_cart_payment;
                 model.legacy_payment :=
                   model.legacy_payment request_cart_payment;
                 model.split_payment :=
                   model.split_payment request_cart_payment;
                 model.created_at := Some (clock s);
                 model.updated_at := Some (clock s) |} in
            (Ok created, insert_row idempotency_key created s)
        end
    end.

(** Modelled from the spec: [CartPaymentProcessor.update_payment]
    (section 4.1).  The cart payment must exist and belong to the payer; a
    change of amount goes through the gateway's adjustment first, and a
    failed adjustment leaves the stored record as it was; an optional field
    that is omitted ([None]) keeps its stored value. *)
Definition update_payment_model
    (idempotency_key : string) (cart_payment_id : UUID) (payer_id : string)
    (amount : Z) (legacy_payment : option model.LegacyPayment)
    (client_description payer_statement_description : option string)
    (metadata : option model.CartMetadata)
    (s : Repository) : result PaymentError model.CartPayment * Repository :=
  match get_by_id cart_payment_id s with
  | None =>
      (Raise (payment_error NotFoundError "cart payment not found" false), s)
  | Some stored =>
      if negb (bool_decide (model.payer_id stored = payer_id)) then
        (Raise (payment_error OwnershipMismatchError
                  "cart payment belongs to another payer" false), s)
      else
        let outcome :=
          if bool_decide (amount = model.amount stored) then Adjusted
          else adjust stored amount in
        match outcome with
        | AdjustmentFailed retry =>
            (Raise (payment_error GatewayError "adjustment failed" retry), s)
        | Adjusted =>
            let updated :=
              {| model.id := model.id stored;
                 model.payer_id := model.payer_id stored;
                 model.amount := amount;
                 model.payment_method_id := model.payment_method_id stored;
                 model.capture_method := model.capture_method stored;
                 model.cart_metadata :=
                   default (model.cart_metadata stored) metadata;
                 model.client_description :=
                   match client_description with
                   | Some d => Some d
                   | None => model.client_description stored
                   end;
                 model.payer_statement_description :=
                   match payer_statement_description with
                   | Some d => Some d
                   | None => model.payer_statement_description stored
                   end;
                 model.legacy_payment :=
                   match legacy_payment with
                   | Some l => Some l
                   | None => model.legacy_payment stored
                   end;
                 model.split_payment := model.split_payment stored;
                 model.created_at := model.created_at stored;
                 model.updated_at := Some (clock s) |} in
            (Ok updated, update_row updated s)
        end
  end.

Definition processor : CartPaymentProcessor Repository :=
  {| submit_payment := submit_payment_model;
     update_payment := update_payment_model |}.

End Processor.

End CartPaymentCore.

(** * Transfers *)
Module TransferApi.

(** The body of a submit request, [transfer_models.SubmitTransfer]. *)
Record SubmitTransfer : Type := {
  b_retry : bool;
  b_submitted_by : option Z;
  b_statement_descriptor : string;
  b_target_type : option string;
  b_target_id : option string;
  b_method : string
}.

(** [SubmitTransferRequest], as the adapter builds it. *)
Record SubmitTransferRequest : Type := {
  transfer_id : Z;
  retry : bool;
  submitted_by : option Z;
  statement_descriptor : string;
  target_type : option string;
  target_id : option string;
  method : string
}.

(** [_StripePayoutRequestPartial] and [StripePayoutRequest] of
    [bankdb/model/stripe_payout_request.py]; the JSON columns are kept as
    text. *)
Record StripePayoutRequest : Type := {
  payout_id : Z;
  idempotency_key : string;
  payout_method_id : Z;
  response : option string;
  created_at : datetime;
  received_at : option datetime;
  updated_at : datetime;
  stripe_payout_id : option string;
  request : option string;
  status : string;
  events : option string;
  stripe_account_id : option string;
  id : option Z
}.

(** The processors, as the adapter sees them: [submit_transfer] over the
    durable state [S], returning the payout record or raising [E]. *)
Record TransferProcessors (S E : Type) : Type := {
  processors_submit_transfer :
    SubmitTransferRequest -> S -> result E StripePayoutRequest * S
}.
Arguments processors_submit_transfer {S E} _.

(** [account_models.Payout] built from the fields of the response: the
    response, field for field. *)
Definition Payout_of_dict (r : StripePayoutRequest) : StripePayoutRequest := r.

Definition submit_transfer {S E : Type}
    (transfer_processors : TransferProcessors S E)
    (transfer_id : Z) (body : SubmitTransfer) (s : S)
  : result E StripePayoutRequest * S :=
  let submit_transfer_request :=
    {| transfer_id := transfer_id;
       retry := b_retry body;
       submitted_by := b_submitted_by body;
       statement_descriptor := b_statement_descriptor body;
       target_type := b_target_type body;
       target_id := b_target_id body;
       method := b_method body |} in
  match processors_submit_transfer transfer_processors
          submit_transfer_request s with
  | (Ok submit_transfer_response, s') =>
      (Ok (Payout_of_dict submit_transfer_response), s')
  | (Raise e, s') => (Raise e, s')
  end.

End TransferApi.

(** * The transfer processor *)
Module TransferCore.
Import TransferApi.

(** Modelled from the spec: the states of a transfer (section 4.3), with
    the terminal skipped state of section 4.2. *)
Inductive TransferStatus : Type :=
| CREATED
| SUBMITTING
| SUBMITTED
| ERROR
| SKIPPED.

#[global] Instance TransferStatus_eq_dec : EqDecision TransferStatus.
Proof. solve_decision. Defined.

(** Modelled from the spec: the transfer entity (section 3), with the
    fields a submission reads. *)
Record Transfer : Type := {
  t_id : Z;
  t_payout_account_id : Z;
  t_amount : Z;
  t_status : TransferStatus
}.

Definition set_status (st : TransferStatus) (t : Transfer) : Transfer :=
  {| t_id := t_id t; t_payout_account_id := t_payout_account_id t;
     t_amount := t_amount t; t_status := st |}.

(** Modelled from the spec: the error classes of section 7 that a
    submission raises. *)
Inductive TransferError : Type :=
| NotFoundError
| InvalidStateTransitionError
| GatewayError (retryable : bool).

(** Modelled from the spec: the gateway client (section 6),
    [submit(idempotency_key, amount, destination, descriptor)]. *)
Inductive gateway_response : Type :=
| gateway_ok (provider_id : string)
| gateway_failed (retryable : bool).

Record gateway_call : Type := {
  g_idempotency_key : string;
  g_amount : Z;
  g_destination : Z;
  g_descriptor : string
}.

(** Modelled from the spec: the durable state behind the processor, the
    transfers by id and the payout records, and the calls made to the
    gateway so far. *)
Record Store : Type := {
  transfers : gmap Z Transfer;
  payout_requests : list StripePayoutRequest;
  gateway_calls : list gateway_call;
  clock : datetime
}.

Definition put_transfer (t : Transfer) (s : Store) : Store :=
  {| transfers := <[t_id t := t]> (transfers s);
     payout_requests := payout_requests s;
     gateway_calls := gateway_calls s;
     clock := clock s |}.

Definition log_gateway_call (c : gateway_call) (s : Store) : Store :=
  {| transfers := transfers s;
     payout_requests := payout_requests s;
     gateway_calls := gateway_calls s ++ [c];
     clock := clock s |}.

Definition put_payout_request (r : StripePayoutRequest) (s : Store) : Store :=
  {| transfers := transfers s;
     payout_requests := payout_requests s ++ [r];
     gateway_calls := gateway_calls s;
     clock := clock s |}.

Definition payout_request_of (transfer_id : Z) (s : Store)
  : option StripePayoutRequest :=
  List.find (fun r => bool_decide (payout_id r = transfer_id))
    (rev (payout_requests s)).

Section Processor.

(** The idempotency key of a submission is a function of the transfer id
    alone. *)
Variable idempotency_key_of : Z -> string.
Variable gateway_submit : gateway_call -> gateway_response.

(** First half of a submission: the check of the state machine and the
    move to [SUBMITTING].  With [retry] the transfer must be in [ERROR];
    without it, in [CREATED]. *)
Definition begin_submission (req : SubmitTransferRequest) (t : Transfer)
    (s : Store) : result TransferError Transfer * Store :=
  let admissible :=
    if retry req then bool_decide (t_status t = ERROR)
    else bool_decide (t_status t = CREATED) in
  if admissible then
    let t' := set_status SUBMITTING t in
    (Ok t', put_transfer t' s)
  else (Raise InvalidStateTransitionError, s).

(** Second half: the gateway is called with the key derived from the
    transfer id, and the outcome is stored. *)
Definition complete_submission (req : SubmitTransferRequest) (t : Transfer)
    (s : Store) : result TransferError StripePayoutRequest * Store :=
  let call :=
    {| g_idempotency_key := idempotency_key_of (t_id t);
       g_amount := t_amount t;
       g_destination := t_payout_account_id t;
       g_descriptor := statement_descriptor req |} in
  let s1 := log_gateway_call call s in
  match gateway_submit call with
  | gateway_ok provider_id =>
      let record :=
        {| payout_id := t_id t;
           idempotency_key := idempotency_key_of (t_id t);
           payout_method_id := t_payout_account_id t;
           response := Some provider_id;
           created_at := clock s;
           received_at := Some (clock s);
           updated_at := clock s;
           stripe_payout_id := Some provider_id;
           request := Some (method req);
           status := "paid";
           events := None;
           stripe_account_id := None;
           id := Some (Z.of_nat (length (payout_requests s))) |} in
      (Ok record, put_payout_request record (put_transfer (set_status SUBMITTED t) s1))
  | gateway_failed retryable =>
      (Raise (GatewayError retryable), put_transfer (set_status ERROR t) s1)
  end.

(** Modelled from the spec: [TransferProcessors.submit_transfer] of
    [app.payout.core.transfer.processor] (section 4.3).  Without [retry] a
    transfer that is already [SUBMITTED] gives back its payout record and
    the gateway is not called. *)
Definition submit_transfer_model (req : SubmitTransferRequest) (s : Store)
  : result TransferError StripePayoutRequest * Store :=
  match transfers s !! transfer_id req with
  | None => (Raise NotFoundError, s)
  | Some t =>
      match
        (if negb (retry req) && bool_decide (t_status t = SUBMITTED)
         then payout_request_of (transfer_id req) s else None)
      with
      | Some existing => (Ok existing, s)
      | None =>
          match begin_submission req t s with
          | (Ok t', s') => complete_submission req t' s'
          | (Raise e, s') => (Raise e, s')
          end
      end
  end.

Definition processors : TransferProcessors Store TransferError :=
  {| processors_submit_transfer := submit_transfer_model |}.

End Processor.

End TransferCore.

(** * Sample data *)
Module Examples.
Import CartPaymentApi CartPaymentCore.

(** A creation request without legacy or split payment. *)
Definition sample_request : CreateCartPaymentRequest.t :=
  {| CreateCartPaymentRequest.payer_id := "payer_1";
     CreateCartPaymentRequest.amount := 500;
     CreateCartPaymentRequest.payment_method_id := "pm_1";
     CreateCartPaymentRequest.capture_method := "auto";
     CreateCartPaymentRequest.metadata :=
       {| request.reference_id := 1; request.ct_reference_id := 2;
          request.type := ORDER_CART |};
     CreateCartPaymentRequest.client_description := Some "order 1";
     CreateCartPaymentRequest.payer_statement_description := None;
     CreateCartPaymentRequest.legacy_payment := None;
     CreateCartPaymentRequest.split_payment := None;
     CreateCartPaymentRequest.idempotency_key := "key_1";
     CreateCartPaymentRequest.country := "US";
     CreateCartPaymentRequest.currency := "usd";
     CreateCartPaymentRequest.payer_id_type := None;
     CreateCartPaymentRequest.payment_method_id_type := None |}.

(** An update that changes the amount and the description only. *)
Definition sample_update : UpdateCartPaymentRequest.t :=
  {| UpdateCartPaymentRequest.idempotency_key := "key_2";
     UpdateCartPaymentRequest.payer_id := "payer_1";
     UpdateCartPaymentRequest.amount := 700;
     UpdateCartPaymentRequest.client_description := Some "order 1, adjusted";
     UpdateCartPaymentRequest.payer_statement_description := None;
     UpdateCartPaymentRequest.legacy_payment := None;
     UpdateCartPaymentRequest.metadata := None |}.

Definition empty_repository : Repository :=
  {| cart_payments := []; clock := 10 |}.

(** Lookups that know every payment method, and none. *)
Definition resolve_any (payment_method_id payer_id : string) : lookup_result :=
  MethodRef payment_method_id.
Definition resolve_none (payment_method_id payer_id : string) : lookup_result :=
  NOT_FOUND.

Definition adjust_ok (cp : model.CartPayment) (amount : Z) : adjustment :=
  Adjusted.

(** A transfer store with one transfer that failed (1) and one that was
    never attempted (2). *)
Definition sample_transfers : TransferCore.Store :=
  {| TransferCore.transfers :=
       <[1 := {| TransferCore.t_id := 1;
                 TransferCore.t_payout_account_id := 42;
                 TransferCore.t_amount := 15000;
                 TransferCore.t_status := TransferCore.ERROR |}]>
       (<[2 := {| TransferCore.t_id := 2;
                  TransferCore.t_payout_account_id := 42;
                  TransferCore.t_amount := 900;
                  TransferCore.t_status := TransferCore.CREATED |}]> ∅);
     TransferCore.payout_requests := [];
     TransferCore.gateway_calls := [];
     TransferCore.clock := 10 |}.

Definition sample_submit_retry : TransferApi.SubmitTransfer :=
  {| TransferApi.b_retry := true;
     TransferApi.b_submitted_by := Some 7;
     TransferApi.b_statement_descriptor := "payout";
     TransferApi.b_target_type := None;
     TransferApi.b_target_id := None;
     TransferApi.b_method := "STANDARD" |}.

Definition sample_key_of (transfer_id : Z) : string :=
  if transfer_id =? 1 then "transfer-1" else "transfer-other".

Definition gateway_accepts (c : TransferCore.gateway_call)
  : TransferCore.gateway_response :=
  TransferCore.gateway_ok "po_abc".

End Examples.

(** * The queries of the repository, in the words of the specification *)
Module BankDBSpec.
Import BankDB.

(** The rows the time-range query is to return, in the words of the
    specification. *)
Definition store_update_in_range (a : Z) (start_time end_time : datetime)
    (r : PaymentAccountEditHistory) : Prop :=
  payment_account_id r = Some a /\ owner_type r = Some STORE
  /\ start_time <= timestamp r <= end_time.

#[global] Instance store_update_in_range_dec a s e r :
  Decision (store_update_in_range a s e r).
Proof. unfold store_update_in_range. apply _. Defined.

(** The window of the most-recent query: with [within_last_timedelta]
    supplied, a row is in the window when its timestamp is strictly after
    the current time minus that duration. *)
Definition in_window (now : datetime) (within_last_timedelta : option timedelta)
    (r : PaymentAccountEditHistory) : Prop :=
  match within_last_timedelta with
  | Some delta => now - delta < timestamp r
  | None => True
  end.

(** [res] is the answer for account [a] among the rows [l] that satisfy
    [P]: a stored row of the account in [P] with the greatest timestamp, or
    [None] when the account has no row in [P]. *)
Definition most_recent_among (a : Z) (P : PaymentAccountEditHistory -> Prop)
    (l : list PaymentAccountEditHistory)
    (res : option PaymentAccountEditHistory) : Prop :=
  match res with
  | Some e =>
      e ∈ l /\ payment_account_id e = Some a /\ P e
      /\ forall r, r ∈ l -> payment_account_id r = Some a -> P r ->
                   timestamp r <= timestamp e
  | None => forall r, r ∈ l -> payment_account_id r = Some a -> ~ P r
  end.

(** The duration the code filters by: a zero duration counts as none. *)
Definition effective_window (within_last_timedelta : option timedelta)
  : option timedelta :=
  match within_last_timedelta with
  | Some delta => if delta =? 0 then None else Some delta
  | None => None
  end.

End BankDBSpec.

(** * The route that creates a transfer *)
Module TransferCreateApi.

(** The body of a create request, [transfer_models.CreateTransfer]. *)
Record CreateTransfer : Type := {
  b_payout_account_id : Z;
  b_transfer_type : string;
  b_start_time : option datetime;
  b_end_time : option datetime;
  b_target_id : option Z;
  b_target_type : option string;
  b_target_business_id : option Z;
  b_payout_countries : option (list string);
  b_created_by_id : option Z
}.

(** [CreateTransferRequest], as the adapter builds it. *)
Record CreateTransferRequest : Type := {
  payout_account_id : Z;
  transfer_type : string;
  start_time : option datetime;
  end_time : option datetime;
  target_id : option Z;
  target_type : option string;
  target_business_id : option Z;
  payout_countries : option (list string);
  created_by_id : option Z
}.

(** [create_transfer] of the adapter; [processors_create_transfer] is the
    method of [transfer_processors] it calls, over the durable state [S],
    and [Transfer_of_dict] builds [transfer_models.Transfer] from the
    fields of the response. *)
Definition create_transfer {S E R T : Type}
    (processors_create_transfer :
       CreateTransferRequest -> S -> result E R * S)
    (Transfer_of_dict : R -> T)
    (body : CreateTransfer) (s : S) : result E T * S :=
  let create_transfer_request :=
    {| payout_account_id := b_payout_account_id body;
       transfer_type := b_transfer_type body;
       start_time := b_start_time body;
       end_time := b_end_time body;
       target_id := b_target_id body;
       target_type := b_target_type body;
       target_business_id := b_target_business_id body;
       payout_countries := b_payout_countries body;
       created_by_id := b_created_by_id body |} in
  match processors_create_transfer create_transfer_request s with
  | (Ok create_transfer_response, s') =>
      (Ok (Transfer_of_dict create_transfer_response), s')
  | (Raise e, s') => (Raise e, s')
  end.

End TransferCreateApi.

(** * The table of payout requests and its entities *)
Module StripePayoutRequestModel.

Inductive sqltype : Type :=
| Integer
| Text
| DateTime (timezone : bool)
| JSON.

(** The keyword arguments and constraints a [Column] is declared with. *)
Inductive column_option : Type :=
| primary_key (b : bool)
| nullable (b : bool)
| unique (b : bool)
| server_default (text : string)
| ForeignKey (target : string)
| onupdate_utcnow.

Record Column : Type := {
  col_name : string;
  col_type : sqltype;
  col_options : list column_option
}.

Definition is_primary_key (c : Column) : bool :=
  existsb (fun o => match o with primary_key b => b | _ => false end)
    (col_options c).

Definition has_server_default (c : Column) : bool :=
  existsb (fun o => match o with server_default _ => true | _ => false end)
    (col_options c).

(** SQLAlchemy: a column is nullable unless it is declared otherwise or is
    part of the primary key. *)
Definition is_nullable (c : Column) : bool :=
  match
    List.find (fun o => match o with nullable _ => true | _ => false end)
      (col_options c)
  with
  | Some (nullable b) => b
  | _ => negb (is_primary_key c)
  end.

(** [StripePayoutRequestTable], column by column. *)
Definition StripePayoutRequestTable_name : string := "stripe_payout_requests".

Definition StripePayoutRequestTable : list Column :=
  [ {| col_name := "id"; col_type := Integer;
       col_options :=
         [ primary_key true;
           server_default
             "nextval('stripe_payout_requests_id_seq'::regclass)" ] |};
    {| col_name := "payout_id"; col_type := Integer;
       col_options :=
         [ ForeignKey "payout.id"; nullable false; unique true ] |};
    {| col_name := "idempotency_key"; col_type := Text;
       col_options := [ nullable false ] |};
    {| col_name := "payout_method_id"; col_type := Integer;
       col_options := [ nullable false ] |};
    {| col_name := "response"; col_type := JSON; col_options := [] |};
    {| col_name := "created_at"; col_type := DateTime true;
       col_options := [ nullable false ] |};
    {| col_name := "received_at"; col_type := DateTime true;
       col_options := [ nullable true ] |};
    {| col_name := "updated_at"; col_type := DateTime true;
       col_options := [ nullable false; onupdate_utcnow ] |};
    {| col_name := "stripe_payout_id"; col_type := Text;
       col_options := [ nullable true ] |};
    {| col_name := "request"; col_type := JSON; col_options := [] |};
    {| col_name := "status"; col_type := Text;
       col_options := [ nullable false ] |};
    {| col_name := "events"; col_type := JSON; col_options := [] |};
    {| col_name := "stripe_account_id"; col_type := Text;
       col_options := [ nullable true ] |} ].

Inductive pytype : Type :=
| py_int
| py_str
| py_datetime
| py_Json.

(** A field of an entity: its annotation is [ty] or [Optional[ty]]. *)
Record field : Type := {
  f_name : string;
  f_type : pytype;
  f_optional : bool
}.

Definition _StripePayoutRequestPartial : list field :=
  [ {| f_name := "payout_id"; f_type := py_int; f_optional := false |};
    {| f_name := "idempotency_key"; f_type := py_str; f_optional := false |};
    {| f_name := "payout_method_id"; f_type := py_int; f_optional := false |};
    {| f_name := "response"; f_type := py_Json; f_optional := true |};
    {| f_name := "created_at"; f_type := py_datetime; f_optional := false |};
    {| f_name := "received_at"; f_type := py_datetime; f_optional := true |};
    {| f_name := "updated_at"; f_type := py_datetime; f_optional := false |};
    {| f_name := "stripe_payout_id"; f_type := py_str; f_optional := true |};
    {| f_name := "request"; f_type := py_Json; f_optional := true |};
    {| f_name := "status"; f_type := py_str; f_optional := false |};
    {| f_name := "events"; f_type := py_Json; f_optional := true |};
    {| f_name := "stripe_account_id"; f_type := py_str;
       f_optional := true |} ].

(** A subclass has the fields of its base, then its own. *)
Definition StripePayoutRequest : list field :=
  _StripePayoutRequestPartial
  ++ [ {| f_name := "id"; f_type := py_int; f_optional := true |} ].

Definition StripePayoutRequestCreate : list field :=
  _StripePayoutRequestPartial.

(** The Python type that holds a value of a column type. *)
Definition python_type (t : sqltype) : pytype :=
  match t with
  | Integer => py_int
  | Text => py_str
  | DateTime _ => py_datetime
  | JSON => py_Json
  end.

#[global] Instance pytype_eq_dec : EqDecision pytype.
Proof. solve_decision. Defined.

End StripePayoutRequestModel.

(** * Requests that differ in the fee of the split payment only *)
Module CartPaymentApiSpec.
Import CartPaymentApi.

(** The request [r], with [fee] as the application fee amount of its split
    payment when it has one. *)
Definition with_application_fee_amount (fee : pyval)
    (r : CreateCartPaymentRequest.t) : CreateCartPaymentRequest.t :=
  {| CreateCartPaymentRequest.payer_id := CreateCartPaymentRequest.payer_id r;
     CreateCartPaymentRequest.amount := CreateCartPaymentRequest.amount r;
     CreateCartPaymentRequest.payment_method_id :=
       CreateCartPaymentRequest.payment_method_id r;
     CreateCartPaymentRequest.capture_method :=
       CreateCartPaymentRequest.capture_method r;
     CreateCartPaymentRequest.metadata := CreateCartPaymentRequest.metadata r;
     CreateCartPaymentRequest.client_description :=
       CreateCartPaymentRequest.client_description r;
     CreateCartPaymentRequest.payer_statement_description :=
       CreateCartPaymentRequest.payer_statement_description r;
     CreateCartPaymentRequest.legacy_payment :=
       CreateCartPaymentRequest.legacy_payment r;
     CreateCartPaymentRequest.split_payment :=
       (fun sp =>
          {| request.payout_account_id := request.payout_account_id sp;
             request.application_fee_amount := fee |})
       <$> CreateCartPaymentRequest.split_payment r;
     CreateCartPaymentRequest.idempotency_key :=
       CreateCartPaymentRequest.idempotency_key r;
     CreateCartPaymentRequest.country := CreateCartPaymentRequest.country r;
     CreateCartPaymentRequest.currency := CreateCartPaymentRequest.currency r;
     CreateCartPaymentRequest.payer_id_type :=
       CreateCartPaymentRequest.payer_id_type r;
     CreateCartPaymentRequest.payment_method_id_type :=
       CreateCartPaymentRequest.payment_method_id_type r |}.

End CartPaymentApiSpec.

(** * Properties of the bank-update history repository *)
Module BankDBFacts.
Import BankDB BankDBSpec.

(** ** What the three queries select *)

Lemma holds_account_query (a : Z) (r : PaymentAccountEditHistory) :
  holds (and_ [ isnot_None col_payment_account_id;
                eq_ col_payment_account_id (VInt a) ]) r = true
  <-> payment_account_id r = Some a.
Proof.
  unfold holds. rewrite bool_decide_eq_true. cbn.
  destruct (payment_account_id r) as [b|]; cbn.
  - rewrite bool_decide_true by discriminate.
    destruct (decide (b = a)) as [->|Hne].
    + rewrite bool_decide_true by reflexivity. cbn. tauto.
    + rewrite bool_decide_false by congruence. cbn.
      split; [discriminate | congruence].
  - split; discriminate.
Qed.

Lemma holds_account_since_query (a : Z) (since : datetime)
    (r : PaymentAccountEditHistory) :
  holds (clauses_append
           (and_ [ isnot_None col_payment_account_id;
                   eq_ col_payment_account_id (VInt a) ])
           (gt_ col_timestamp (VTime since))) r = true
  <-> payment_account_id r = Some a /\ since < timestamp r.
Proof.
  unfold holds. rewrite bool_decide_eq_true. cbn.
  destruct (payment_account_id r) as [b|]; cbn.
  - rewrite bool_decide_true by discriminate.
    destruct (decide (b = a)) as [->|Hne].
    + rewrite bool_decide_true by reflexivity.
      destruct (Z.compare_spec (timestamp r) since); cbn;
        (split;
         [ first [discriminate | intros _; split; [reflexivity | lia]]
         | intros [_ ?]; first [reflexivity | lia] ]).
    + rewrite bool_decide_false by congruence.
      destruct (timestamp r ?= since); cbn;
        (split; [discriminate | intros [? _]; congruence]).
  - destruct (timestamp r ?= since); cbn;
      (split; [discriminate | intros [? _]; discriminate]).
Qed.

Lemma holds_time_range_query (a : Z) (s e : datetime)
    (r : PaymentAccountEditHistory) :
  holds (and_ [ eq_ col_payment_account_id (VInt a);
                eq_ col_owner_type (VOwner STORE);
                ge_ col_timestamp (VTime s);
                le_ col_timestamp (VTime e) ]) r = true
  <-> store_update_in_range a s e r.
Proof.
  unfold holds, store_update_in_range. rewrite bool_decide_eq_true. cbn.
  destruct (payment_account_id r) as [b|], (owner_type r) as [o|]; cbn;
    repeat case_bool_decide; simplify_eq;
    destruct (Z.compare_spec (timestamp r) s),
             (Z.compare_spec (timestamp r) e); cbn;
    (split;
     [ first [discriminate | intros _; repeat split; first [congruence | lia]]
     | intros (? & ? & ? & ?); simplify_eq; first [reflexivity | lia] ]).
Qed.

(** [List.filter] by a boolean test is the filter by the property the
    test decides. *)
Lemma filter_bool_prop {A} (f : A -> bool) (P : A -> Prop)
    `{!forall x, Decision (P x)} (l : list A) :
  (forall x, f x = true <-> P x) -> List.filter f l = filter P l.
Proof.
  intros Hf. induction l as [|x l IH]; [reflexivity|].
  change (List.filter f (x :: l))
    with (if f x then x :: List.filter f l else List.filter f l).
  rewrite IH. destruct (decide (P x)) as [HP|HP].
  - rewrite filter_cons_True by assumption.
    apply Hf in HP. rewrite HP. reflexivity.
  - rewrite filter_cons_False by assumption.
    destruct (f x) eqn:E; [apply Hf in E; contradiction | reflexivity].
Qed.

(** ** The descending sort *)

Lemma insert_desc_cons c r x l :
  insert_desc c r (x :: l)
  = if desc_before (col c r) (col c x) then r :: x :: l
    else x :: insert_desc c r l.
Proof. reflexivity. Qed.

Lemma elem_of_insert_desc c r l x :
  x ∈ insert_desc c r l <-> x = r \/ x ∈ l.
Proof.
  induction l as [|y l IH]; cbn.
  - rewrite list_elem_of_singleton, elem_of_nil. tauto.
  - destruct (desc_before (col c r) (col c y)).
    + rewrite !elem_of_cons. tauto.
    + rewrite !elem_of_cons, IH. tauto.
Qed.

Lemma elem_of_order_by_desc c l x : x ∈ order_by_desc c l <-> x ∈ l.
Proof.
  unfold order_by_desc. induction l as [|y l IH]; cbn; [tauto|].
  rewrite elem_of_insert_desc, elem_of_cons, IH. tauto.
Qed.

Lemma desc_before_timestamp (r x : PaymentAccountEditHistory) :
  desc_before (col col_timestamp r) (col col_timestamp x)
  = bool_decide (timestamp x <= timestamp r).
Proof.
  cbn. destruct (Z.compare_spec (timestamp r) (timestamp x));
    symmetry; [apply bool_decide_eq_true | apply bool_decide_eq_false
              | apply bool_decide_eq_true]; lia.
Qed.

(** The first row of a list sorted by descending timestamp has the
    greatest timestamp. *)
Lemma head_order_by_desc_max (l : list PaymentAccountEditHistory) e :
  head (order_by_desc col_timestamp l) = Some e ->
  forall r, r ∈ l -> timestamp r <= timestamp e.
Proof.
  intros Hhead r Hr. apply (elem_of_order_by_desc col_timestamp) in Hr.
  revert e Hhead r Hr. unfold order_by_desc.
  induction l as [|y l IH]; intros e Hhead r Hr.
  - apply elem_of_nil in Hr. contradiction.
  - change (foldr (insert_desc col_timestamp) [] (y :: l))
      with (insert_desc col_timestamp y
              (foldr (insert_desc col_timestamp) [] l)) in Hhead, Hr.
    destruct (foldr (insert_desc col_timestamp) [] l) as [|x s] eqn:Es.
    + cbn in Hhead, Hr. apply list_elem_of_singleton in Hr. simplify_eq. lia.
    + rewrite insert_desc_cons, desc_before_timestamp in Hhead, Hr.
      specialize (IH x eq_refl).
      case_bool_decide as Hle; cbn in Hhead; simplify_eq.
      * apply elem_of_cons in Hr as [->|Hr]; [lia|].
        specialize (IH r Hr). lia.
      * apply elem_of_cons in Hr as [->|Hr]; [lia|].
        apply elem_of_insert_desc in Hr as [->|Hr]; [lia|].
        apply IH. apply elem_of_cons. right. assumption.
Qed.

(** The first row of the sorted selection, for a query [q] that selects
    the rows in [Q]. *)
Lemma head_sorted_selection (q : BooleanClauseList)
    (Q : PaymentAccountEditHistory -> Prop)
    (l : list PaymentAccountEditHistory) :
  (forall r, holds q r = true <-> Q r) ->
  match head (order_by_desc col_timestamp (List.filter (holds q) l)) with
  | Some e =>
      e ∈ l /\ Q e /\ forall r, r ∈ l -> Q r -> timestamp r <= timestamp e
  | None => forall r, r ∈ l -> ~ Q r
  end.
Proof.
  intros HQ.
  destruct (head (order_by_desc col_timestamp (List.filter (holds q) l)))
    as [e|] eqn:Hhead.
  - assert (He : e ∈ List.filter (holds q) l).
    { apply (elem_of_order_by_desc col_timestamp).
      apply head_Some in Hhead as [s ->]. apply elem_of_cons. left. reflexivity. }
    apply list_elem_of_In, filter_In in He as [He1 He2].
    split; [apply list_elem_of_In; assumption|].
    split; [apply HQ; assumption|].
    intros r Hr HQr. apply (head_order_by_desc_max _ _ Hhead).
    apply list_elem_of_In, filter_In. split.
    + apply list_elem_of_In; assumption.
    + apply HQ; assumption.
  - intros r Hr HQr. apply head_None in Hhead.
    assert (Hin : r ∈ order_by_desc col_timestamp (List.filter (holds q) l)).
    { apply elem_of_order_by_desc, list_elem_of_In, filter_In. split.
      - apply list_elem_of_In; assumption.
      - apply HQ; assumption. }
    rewrite Hhead in Hin. apply elem_of_nil in Hin. contradiction.
Qed.

(** ** Writes *)

(** C2. For every creation entity, [record_bank_update] inserts one row
    whose timestamp is the server clock reading taken at the write,
    whatever timestamp the caller's data carries, and returns that row. *)
Theorem record_bank_update_server_timestamp
    (now : datetime) (data : PaymentAccountEditHistoryCreate) (db : Database) :
  exists entry db',
    record_bank_update now data db = (Ok entry, db')
    /\ rows db' = rows db ++ [entry]
    /\ timestamp entry = now
    /\ entry = {| id := id_seq db;
                 timestamp := now;
                 payment_account_id := c_payment_account_id data;
                 owner_type := c_owner_type data;
                 change := c_change data |}.
Proof.
  eexists _, _. unfold record_bank_update, fetch_one. cbn.
  repeat split; reflexivity.
Qed.

(** C5. Every operation of the repository keeps the stored entries: the
    three reads leave the database as it was, and [record_bank_update]
    only adds one entry after the stored ones. *)
Theorem repository_is_append_only :
  (forall now a w db, snd (get_most_recent_bank_update now a w db) = db)
  /\ (forall t db,
        snd (get_recent_bank_update_payment_account_ids t db) = db)
  /\ (forall a s e db,
        snd (get_bank_updates_for_store_with_payment_account_and_time_range
               a s e db) = db)
  /\ (forall now data db,
        exists entry,
          rows (snd (record_bank_update now data db)) = rows db ++ [entry]).
Proof.
  split; [|split; [|split]].
  - intros now a w db. unfold get_most_recent_bank_update.
    destruct w as [d|]; [destruct (d =? 0); [reflexivity|]|reflexivity].
    destruct (datetime_sub now d); reflexivity.
  - intros t db. reflexivity.
  - intros a s e db.
    unfold get_bank_updates_for_store_with_payment_account_and_time_range,
      fetch_all, execute.
    destruct (List.filter _ (rows db)); reflexivity.
  - intros now data db. eexists. reflexivity.
Qed.

(** ** Reads *)

(** C9. The time-range query returns exactly the stored entries of the
    account whose owner type is STORE and whose timestamp lies between
    [start_time] and [end_time], both included, each as often as it is
    stored and in the order of the table; the list is empty when no entry
    matches. *)
Theorem time_range_query_exact
    (a : Z) (start_time end_time : datetime) (db : Database) :
  exists l,
    get_bank_updates_for_store_with_payment_account_and_time_range
      a start_time end_time db = (Ok l, db)
    /\ l = filter (store_update_in_range a start_time end_time) (rows db)
    /\ (forall r, r ∈ l <->
                  r ∈ rows db /\ store_update_in_range a start_time end_time r)
    /\ ((forall r, r ∈ rows db ->
                   ~ store_update_in_range a start_time end_time r) ->
        l = []).
Proof.
  exists (filter (store_update_in_range a start_time end_time) (rows db)).
  split; [|split; [reflexivity|split]].
  - unfold get_bank_updates_for_store_with_payment_account_and_time_range,
      fetch_all, execute.
    rewrite (filter_bool_prop _ (store_update_in_range a start_time end_time))
      by apply holds_time_range_query.
    destruct (filter _ (rows db)); reflexivity.
  - intros r. rewrite list_elem_of_filter. tauto.
  - intros Hnone.
    destruct (filter _ (rows db)) as [|r l] eqn:E; [reflexivity|].
    assert (Hr : r ∈ filter (store_update_in_range a start_time end_time)
                      (rows db)).
    { rewrite E. apply elem_of_cons. left. reflexivity. }
    apply list_elem_of_filter in Hr as [HP Hin].
    destruct (Hnone r Hin HP).
Qed.

(** C4, as the code has it. [get_most_recent_bank_update] returns the
    stored entry of the account with the greatest timestamp, taken among
    the entries later than the current time minus [within_last_timedelta]
    when that duration is supplied and is not zero (a zero duration
    restricts nothing), and [None] when there is no such entry; this
    whenever the cutoff is a datetime Python can represent. *)
Theorem get_most_recent_bank_update_correct
    (now : datetime) (a : Z) (within_last_timedelta : option timedelta)
    (db : Database) :
  (forall delta, within_last_timedelta = Some delta -> delta <> 0 ->
                 0 <= now - delta <= datetime_max) ->
  exists res,
    get_most_recent_bank_update now a within_last_timedelta db = (Ok res, db)
    /\ most_recent_among a
         (in_window now (effective_window within_last_timedelta))
         (rows db) res.
Proof.
  intros Hrepr. unfold get_most_recent_bank_update, effective_window.
  destruct within_last_timedelta as [delta|].
  - destruct (Z.eqb_spec delta 0) as [->|Hnz].
    + eexists. split; [reflexivity|].
      pose proof (head_sorted_selection _ _ (rows db)
                    (holds_account_query a)) as H.
      unfold most_recent_among, in_window.
      destruct (head _) as [e|].
      * destruct H as (H1 & H2 & H3). repeat split; try assumption.
        intros r Hr Ha _. apply H3; assumption.
      * intros r Hr Ha _. exact (H r Hr Ha).
    + unfold datetime_sub.
      rewrite bool_decide_true by (apply Hrepr; [reflexivity | assumption]).
      eexists. split; [reflexivity|].
      pose proof (head_sorted_selection _ _ (rows db)
                    (holds_account_since_query a (now - delta))) as H.
      unfold most_recent_among, in_window.
      destruct (head _) as [e|].
      * destruct H as (H1 & [H2 H2'] & H3). repeat split; try assumption.
        intros r Hr Ha Hw. apply H3; [assumption | split; assumption].
      * intros r Hr Ha Hw. exact (H r Hr (conj Ha Hw)).
  - eexists. split; [reflexivity|].
    pose proof (head_sorted_selection _ _ (rows db)
                  (holds_account_query a)) as H.
    unfold most_recent_among, in_window.
    destruct (head _) as [e|].
    + destruct H as (H1 & H2 & H3). repeat split; try assumption.
      intros r Hr Ha _. apply H3; assumption.
    + intros r Hr Ha _. exact (H r Hr Ha).
Qed.

Lemma get_most_recent_bank_update_correct_witness :
  let db :=
    {| rows := [ {| id := 1; timestamp := 100; payment_account_id := Some 7;
                    owner_type := Some STORE; change := [] |};
                 {| id := 2; timestamp := 200; payment_account_id := Some 7;
                    owner_type := None; change := [] |} ];
       id_seq := 3 |} in
  (forall delta, Some 850 = Some delta -> delta <> 0 ->
                 0 <= 1000 - delta <= datetime_max)
  /\ exists res,
       get_most_recent_bank_update 1000 7 (Some 850) db = (Ok res, db)
       /\ most_recent_among 7 (in_window 1000 (effective_window (Some 850)))
            (rows db) res.
Proof.
  intros db.
  assert (H : forall delta, Some 850 = Some delta -> delta <> 0 ->
                            0 <= 1000 - delta <= datetime_max).
  { intros delta [= <-] _. unfold datetime_max. lia. }
  split; [exact H|].
  exact (get_most_recent_bank_update_correct 1000 7 (Some 850) db H).
Defined.

(** C4, as the specification words it, fails on two inputs.  With a zero
    [within_last_timedelta] the code applies no window, so it returns an
    entry that is not later than the current time; and with a duration
    that takes the cutoff below [datetime.min] the subtraction raises
    [OverflowError] and nothing is returned. *)
Lemma get_most_recent_bank_update_window_counterexample :
  let now := 63700000000000000 in
  let e := {| id := 1; timestamp := now - 1000000;
              payment_account_id := Some 42; owner_type := Some STORE;
              change := [] |} in
  let db := {| rows := [e]; id_seq := 2 |} in
  (get_most_recent_bank_update now 42 (Some 0) db = (Ok (Some e), db)
   /\ ~ most_recent_among 42 (in_window now (Some 0)) (rows db) (Some e))
  /\ (get_most_recent_bank_update now 42 (Some (now + 1)) db
      = (Raise OverflowError, db)
      /\ ~ exists res,
           fst (get_most_recent_bank_update now 42 (Some (now + 1)) db)
           = Ok res).
Proof.
  cbv zeta. split; split.
  - vm_compute. reflexivity.
  - intros (_ & _ & Hw & _). cbn in Hw. lia.
  - vm_compute. reflexivity.
  - intros [res Hres]. vm_compute in Hres. discriminate.
Qed.

End BankDBFacts.

(** * Properties of the cart-payment adapter *)
Module CartPaymentApiFacts.
Import CartPaymentApi.

(** ** [getattr] *)

Lemma getattr_None {T} (attr : T -> string -> option pyval) name default :
  getattr attr None name default = default.
Proof. reflexivity. Qed.

Lemma getattr_missing {T} (attr : T -> string -> option pyval) o name default :
  attr o name = None -> getattr attr (Some o) name default = default.
Proof. intros H. unfold getattr. rewrite H. reflexivity. Qed.

(** A split-payment section has no attribute of the name the adapter asks
    for. *)
Lemma SplitPayment_no_appication_fee_amount (o : request.SplitPayment) :
  request.SplitPayment_attr o "appication_fee_amount" = None.
Proof. reflexivity. Qed.

(** The split payment of the built model, whatever the request. *)
Lemma request_to_model_split_payment
    (cart_payment_request : CreateCartPaymentRequest.t) (supply : Z) :
  model.split_payment (fst (request_to_model cart_payment_request supply))
  = Some
      {| model.payout_account_id :=
           match CreateCartPaymentRequest.split_payment cart_payment_request
           with
           | Some o => request.payout_account_id o
           | None => PyNone
           end;
         model.application_fee_amount := PyNone |}.
Proof.
  unfold request_to_model. cbn.
  destruct (CreateCartPaymentRequest.split_payment cart_payment_request);
    reflexivity.
Qed.

(** ** Creation *)

(** C7, at a request with a split payment of account "acct_1" and fee 100:
    the model built by [request_to_model] carries the payout account, but
    its application fee amount is [None] and not the fee of the request. *)
Theorem request_to_model_loses_application_fee_amount :
  let split :=
    {| request.payout_account_id := PyStr "acct_1";
       request.application_fee_amount := PyInt 100 |} in
  let cart_payment_request :=
    {| CreateCartPaymentRequest.payer_id := "payer_1";
       CreateCartPaymentRequest.amount := 500;
       CreateCartPaymentRequest.payment_method_id := "pm_1";
       CreateCartPaymentRequest.capture_method := "auto";
       CreateCartPaymentRequest.metadata :=
         {| request.reference_id := 1; request.ct_reference_id := 2;
            request.type := ORDER_CART |};
       CreateCartPaymentRequest.client_description := None;
       CreateCartPaymentRequest.payer_statement_description := None;
       CreateCartPaymentRequest.legacy_payment := None;
       CreateCartPaymentRequest.split_payment := Some split;
       CreateCartPaymentRequest.idempotency_key := "key_1";
       CreateCartPaymentRequest.country := "US";
       CreateCartPaymentRequest.currency := "usd";
       CreateCartPaymentRequest.payer_id_type := None;
       CreateCartPaymentRequest.payment_method_id_type := None |} in
  exists built,
    model.split_payment (fst (request_to_model cart_payment_request 0))
    = Some built
    /\ model.payout_account_id built = request.payout_account_id split
    /\ model.application_fee_amount built = PyNone
    /\ model.application_fee_amount built
       <> request.application_fee_amount split.
Proof.
  cbv zeta. eexists. split; [reflexivity|]. cbn.
  repeat split; discriminate.
Qed.

(** C10. For every creation request, [request_to_model] builds a cart
    payment whose legacy and split payments are objects and not [None],
    with [None] in every field whose request section or attribute is
    absent; whose id is the one [uuid4] generates, the same for any other
    request, and not generated again by the next call; and whose
    [created_at] and [updated_at] are [None]. *)
Theorem request_to_model_shape
    (cart_payment_request : CreateCartPaymentRequest.t) (supply : Z) :
  let built := fst (request_to_model cart_payment_request supply) in
  let supply' := snd (request_to_model cart_payment_request supply) in
  model.legacy_payment built
  = Some
      match CreateCartPaymentRequest.legacy_payment cart_payment_request with
      | Some o =>
          {| model.consumer_id := request.consumer_id o;
             model.charge_id := request.charge_id o;
             model.stripe_customer_id := request.stripe_customer_id o |}
      | None =>
          {| model.consumer_id := PyNone;
             model.charge_id := PyNone;
             model.stripe_customer_id := PyNone |}
      end
  /\ model.split_payment built
     = Some
         {| model.payout_account_id :=
              match CreateCartPaymentRequest.split_payment
                      cart_payment_request with
              | Some o => request.payout_account_id o
              | None => PyNone
              end;
            model.application_fee_amount := PyNone |}
  /\ model.id built = fst (uuid4 supply)
  /\ (forall other : CreateCartPaymentRequest.t,
        model.id (fst (request_to_model other supply)) = model.id built)
  /\ (forall other : CreateCartPaymentRequest.t,
        model.id (fst (request_to_model other supply')) <> model.id built)
  /\ model.created_at built = None
  /\ model.updated_at built = None.
Proof.
  cbv zeta. split; [|split; [|split; [|split; [|split; [|split]]]]].
  - unfold request_to_model. cbn.
    destruct (CreateCartPaymentRequest.legacy_payment cart_payment_request);
      reflexivity.
  - apply request_to_model_split_payment.
  - reflexivity.
  - intros other. reflexivity.
  - intros other. cbn. lia.
  - reflexivity.
  - reflexivity.
Qed.

(** C3. When [submit_payment] raises a [PaymentError], the adapter raises a
    [PaymentException] with the same error code, message and retryable
    flag; its HTTP status is 400 for PAYMENT_METHOD_GET_NOT_FOUND, 403 for
    PAYMENT_METHOD_GET_PAYER_PAYMENT_METHOD_MISMATCH and 500 for any other
    code. *)
Theorem create_cart_payment_reraises {S : Type}
    (cart_payment_processor : CartPaymentProcessor S)
    (cart_payment_request : CreateCartPaymentRequest.t) (w : World S)
    (payment_error : PaymentError) (st : S) :
  submit_payment cart_payment_processor
    (fst (request_to_model cart_payment_request (uuid_supply w)))
    (CreateCartPaymentRequest.idempotency_key cart_payment_request)
    (CreateCartPaymentRequest.country cart_payment_request)
    (CreateCartPaymentRequest.currency cart_payment_request)
    (CreateCartPaymentRequest.client_description cart_payment_request)
    (CreateCartPaymentRequest.payer_id_type cart_payment_request)
    (CreateCartPaymentRequest.payment_method_id_type cart_payment_request)
    (store w)
  = (Raise payment_error, st) ->
  exists exc,
    fst (create_cart_payment cart_payment_processor cart_payment_request w)
    = Raise (raise_PaymentException exc)
    /\ error_code exc = pe_error_code payment_error
    /\ error_message exc = pe_error_message payment_error
    /\ retryable exc = pe_retryable payment_error
    /\ (pe_error_code payment_error = PAYMENT_METHOD_GET_NOT_FOUND ->
        http_status_code exc = 400)
    /\ (pe_error_code payment_error
        = PAYMENT_METHOD_GET_PAYER_PAYMENT_METHOD_MISMATCH ->
        http_status_code exc = 403)
    /\ (pe_error_code payment_error <> PAYMENT_METHOD_GET_NOT_FOUND ->
        pe_error_code payment_error
        <> PAYMENT_METHOD_GET_PAYER_PAYMENT_METHOD_MISMATCH ->
        http_status_code exc = 500).
Proof.
  intros Hraise. unfold create_cart_payment.
  destruct (request_to_model cart_payment_request (uuid_supply w))
    as [request_cart_payment supply'] eqn:Hmodel.
  cbn [fst] in Hraise. rewrite Hraise. cbn [fst].
  eexists. split; [reflexivity|]. cbn.
  repeat split.
  - intros ->. reflexivity.
  - intros ->. reflexivity.
  - intros H1 H2. rewrite !decide_False by assumption. reflexivity.
Qed.

End CartPaymentApiFacts.

(** * Properties of the cart-payment processor *)
Module CartPaymentCoreFacts.
Import CartPaymentApi CartPaymentCore.

(** ** The repository *)

Lemma find_key_app_fresh (key : string) (cp : model.CartPayment)
    (l : list (string * model.CartPayment)) :
  List.find (fun row => bool_decide (fst row = key)) l = None ->
  List.find (fun row => bool_decide (fst row = key)) (l ++ [(key, cp)])
  = Some (key, cp).
Proof.
  induction l as [|row l IH]; cbn.
  - intros _. rewrite bool_decide_true by reflexivity. reflexivity.
  - destruct (bool_decide (fst row = key)); [discriminate | exact IH].
Qed.

Lemma filter_key_fresh (key : string) (l : list (string * model.CartPayment)) :
  List.find (fun row => bool_decide (fst row = key)) l = None ->
  filter (fun row => fst row = key) l = [].
Proof.
  induction l as [|row l IH]; [reflexivity|]. cbn [List.find].
  case_bool_decide as Hk; [discriminate|]. intros Hfind.
  rewrite filter_cons_False by assumption. apply IH. assumption.
Qed.

Lemma get_by_idempotency_key_insert_row key cp s :
  get_by_idempotency_key key s = None ->
  get_by_idempotency_key key (insert_row key cp s) = Some cp.
Proof.
  unfold get_by_idempotency_key, insert_row. cbn [cart_payments].
  destruct (List.find _ (cart_payments s)) eqn:E; [discriminate|].
  intros _. rewrite (find_key_app_fresh _ _ _ E). reflexivity.
Qed.

Lemma get_by_id_update_row (cp stored : model.CartPayment) (s : Repository) :
  get_by_id (model.id cp) s = Some stored ->
  get_by_id (model.id cp) (update_row cp s) = Some cp.
Proof.
  unfold get_by_id, update_row. cbn [cart_payments].
  induction (cart_payments s) as [|row l IH]; [discriminate|].
  cbn [map List.find].
  destruct (decide (model.id (snd row) = model.id cp)) as [Hid|Hid].
  - rewrite !bool_decide_true by assumption. cbn [snd].
    rewrite bool_decide_true by reflexivity. reflexivity.
  - rewrite !bool_decide_false by assumption. exact IH.
Qed.

Lemma get_by_id_update_row_other (cp : model.CartPayment) (i : UUID)
    (s : Repository) :
  model.id cp <> i -> get_by_id i (update_row cp s) = get_by_id i s.
Proof.
  intros Hne. unfold get_by_id, update_row. cbn [cart_payments].
  induction (cart_payments s) as [|row l IH]; [reflexivity|].
  cbn [map List.find].
  destruct (decide (model.id (snd row) = model.id cp)) as [Hid|Hid].
  - rewrite (bool_decide_true _ Hid). cbn [snd].
    rewrite !bool_decide_false by congruence. exact IH.
  - rewrite (bool_decide_false _ Hid).
    destruct (bool_decide (model.id (snd row) = i)); [reflexivity | exact IH].
Qed.

Lemma get_by_id_found (i : UUID) (s : Repository) cp :
  get_by_id i s = Some cp -> model.id cp = i.
Proof.
  unfold get_by_id. intros H. apply find_some in H as [_ H].
  apply bool_decide_eq_true in H. exact H.
Qed.

Lemma same_payload_eq a b : same_payload a b = true -> payload a = payload b.
Proof. unfold same_payload. apply bool_decide_eq_true. Qed.

Section Processor.

Variable resolve : string -> string -> lookup_result.
Variable adjust : model.CartPayment -> Z -> adjustment.

(** ** Creation *)

(** C1. When a first [submit_payment] succeeds, a second call with the
    same idempotency key and an identical payload returns the same cart
    payment, with the same id, and writes nothing; when the key was new,
    the two calls together have stored one row, the one returned, and its
    id is the id of the first request. *)
Theorem submit_payment_idempotent
    (first second : model.CartPayment) (idempotency_key : string)
    (country currency : string)
    (client_description payer_id_type payment_method_id_type : option string)
    (country' currency' : string)
    (client_description' payer_id_type' payment_method_id_type'
       : option string)
    (s s1 : Repository) (returned : model.CartPayment) (later : datetime) :
  submit_payment_model resolve first idempotency_key country currency
    client_description payer_id_type payment_method_id_type s
  = (Ok returned, s1) ->
  same_payload first second = true ->
  let s1' := {| cart_payments := cart_payments s1; clock := later |} in
  submit_payment_model resolve second idempotency_key country' currency'
    client_description' payer_id_type' payment_method_id_type' s1'
  = (Ok returned, s1')
  /\ (get_by_idempotency_key idempotency_key s = None ->
      cart_payments s1 = cart_payments s ++ [(idempotency_key, returned)]
      /\ filter (fun row => fst row = idempotency_key) (cart_payments s1)
         = [(idempotency_key, returned)]
      /\ model.id returned = model.id first).
Proof.
  intros Hfirst Hsame s1'. apply same_payload_eq in Hsame.
  assert (Hfields :
    model.amount second = model.amount first
    /\ model.payment_method_id second = model.payment_method_id first
    /\ model.payer_id second = model.payer_id first).
  { unfold payload in Hsame. injection Hsame as -> -> -> _ _ _ _ _ _.
    repeat split. }
  destruct Hfields as (Ha & Hm & Hp).
  unfold submit_payment_model in *. rewrite Ha, Hm, Hp.
  destruct (model.amount first <? 0); [discriminate|].
  destruct (resolve _ _); try discriminate.
  destruct (get_by_idempotency_key idempotency_key s) as [stored|] eqn:Hget.
  - destruct (same_payload stored first) eqn:Hst; [|discriminate].
    injection Hfirst as <- <-. split; [|discriminate].
    change (get_by_idempotency_key idempotency_key s1')
      with (get_by_idempotency_key idempotency_key s).
    rewrite Hget. apply same_payload_eq in Hst.
    unfold same_payload. rewrite bool_decide_true by congruence.
    reflexivity.
  - injection Hfirst as <- <-.
    match goal with
    | |- context [insert_row _ ?c s] => set (created := c) in *
    end.
    change (get_by_idempotency_key idempotency_key s1')
      with (get_by_idempotency_key idempotency_key
              (insert_row idempotency_key created s)).
    rewrite (get_by_idempotency_key_insert_row _ _ _ Hget).
    assert (Hpc : payload created = payload first) by reflexivity.
    unfold same_payload. rewrite bool_decide_true by congruence.
    split; [reflexivity|]. intros _. split; [reflexivity|]. split.
    + cbn [insert_row cart_payments]. rewrite filter_app.
      unfold get_by_idempotency_key in Hget.
      destruct (List.find _ (cart_payments s)) eqn:E; [discriminate|].
      rewrite (filter_key_fresh _ _ E).
      rewrite filter_cons_True by reflexivity. reflexivity.
    + reflexivity.
Qed.

(** ** Update *)

(** C6. Whatever an [update_payment] made through the adapter does, every
    stored cart payment keeps the value of each optional field
    ([legacy_payment], [client_description],
    [payer_statement_description], [metadata]) that the request omits; and
    the adapter passes [None] for [legacy_payment] and for [metadata]
    exactly when the request omits them. *)
Theorem update_cart_payment_keeps_omitted_fields
    (cart_payment_id : UUID)
    (cart_payment_request : UpdateCartPaymentRequest.t)
    (w : World Repository) (i : UUID) (stored : model.CartPayment) :
  get_by_id i (store w) = Some stored ->
  let w' :=
    snd (update_cart_payment (processor resolve adjust) cart_payment_id
           cart_payment_request w) in
  (exists after,
     get_by_id i (store w') = Some after
     /\ (UpdateCartPaymentRequest.legacy_payment cart_payment_request = None ->
         model.legacy_payment after = model.legacy_payment stored)
     /\ (UpdateCartPaymentRequest.client_description cart_payment_request
         = None ->
         model.client_description after = model.client_description stored)
     /\ (UpdateCartPaymentRequest.payer_statement_description
           cart_payment_request = None ->
         model.payer_statement_description after
         = model.payer_statement_description stored)
     /\ (UpdateCartPaymentRequest.metadata cart_payment_request = None ->
         model.cart_metadata after = model.cart_metadata stored))
  /\ (get_legacy_payment_model cart_payment_request = None <->
      UpdateCartPaymentRequest.legacy_payment cart_payment_request = None)
  /\ (get_cart_payment_metadata_model cart_payment_request = None <->
      UpdateCartPaymentRequest.metadata cart_payment_request = None).
Proof.
  intros Hstored w'. split; [|split].
  - subst w'. unfold update_cart_payment. cbn [update_payment processor].
    unfold update_payment_model.
    assert (Hkeep : exists after,
              get_by_id i (store w) = Some after
              /\ (UpdateCartPaymentRequest.legacy_payment cart_payment_request
                  = None ->
                  model.legacy_payment after = model.legacy_payment stored)
              /\ (UpdateCartPaymentRequest.client_description
                    cart_payment_request = None ->
                  model.client_description after
                  = model.client_description stored)
              /\ (UpdateCartPaymentRequest.payer_statement_description
                    cart_payment_request = None ->
                  model.payer_statement_description after
                  = model.payer_statement_description stored)
              /\ (UpdateCartPaymentRequest.metadata cart_payment_request
                  = None ->
                  model.cart_metadata after = model.cart_metadata stored)).
    { exists stored. repeat split; auto. }
    destruct (get_by_id cart_payment_id (store w)) as [target|] eqn:Htarget;
      [|exact Hkeep].
    pose proof (get_by_id_found _ _ _ Htarget) as Hid.
    destruct (negb _); [exact Hkeep|].
    match goal with
    | |- context [match ?o with Adjusted => _ | AdjustmentFailed _ => _ end] =>
        destruct o
    end; [|exact Hkeep].
    cbn [snd store].
    match goal with
    | |- context [update_row ?u _] => set (updated := u)
    end.
    destruct (decide (i = cart_payment_id)) as [->|Hother].
    + assert (target = stored) as -> by congruence.
      exists updated. split.
      * rewrite <- Hid.
        change (model.id stored) with (model.id updated).
        apply (get_by_id_update_row updated stored).
        change (model.id updated) with (model.id stored).
        rewrite Hid. exact Hstored.
      * subst updated. cbn.
        unfold get_legacy_payment_model, get_cart_payment_metadata_model.
        repeat split; intros ->; reflexivity.
    + rewrite get_by_id_update_row_other.
      * exact Hkeep.
      * change (model.id updated) with (model.id target). congruence.
  - unfold get_legacy_payment_model.
    destruct (UpdateCartPaymentRequest.legacy_payment cart_payment_request);
      split; (reflexivity || discriminate).
  - unfold get_cart_payment_metadata_model.
    destruct (UpdateCartPaymentRequest.metadata cart_payment_request);
      split; (reflexivity || discriminate).
Qed.

End Processor.

Lemma submit_payment_idempotent_witness :
  let first := fst (request_to_model Examples.sample_request 0) in
  let second := fst (request_to_model Examples.sample_request 1) in
  let s := Examples.empty_repository in
  exists returned s1,
    submit_payment_model Examples.resolve_any first "key_1" "US" "usd"
      None None None s = (Ok returned, s1)
    /\ same_payload first second = true
    /\ model.id first <> model.id second
    /\ submit_payment_model Examples.resolve_any second "key_1" "US" "usd"
         None None None {| cart_payments := cart_payments s1; clock := 20 |}
       = (Ok returned, {| cart_payments := cart_payments s1; clock := 20 |})
    /\ model.id returned = model.id first.
Proof.
  intros first second s.
  destruct (submit_payment_model Examples.resolve_any first "key_1" "US" "usd"
              None None None s) as [[returned|e] s1] eqn:Hfirst;
    [|vm_compute in Hfirst; discriminate].
  assert (Hsame : same_payload first second = true) by reflexivity.
  exists returned, s1. split; [reflexivity|]. split; [exact Hsame|].
  split; [vm_compute; discriminate|].
  pose proof (submit_payment_idempotent Examples.resolve_any first second
                "key_1" "US" "usd" None None None "US" "usd" None None None
                s s1 returned 20 Hfirst Hsame) as [Hsecond Hrows].
  split; [exact Hsecond|]. apply Hrows. reflexivity.
Defined.

Lemma update_cart_payment_keeps_omitted_fields_witness :
  let stored :=
    {| model.id := 0; model.payer_id := "payer_1"; model.amount := 500;
       model.payment_method_id := "pm_1"; model.capture_method := "auto";
       model.cart_metadata :=
         {| model.reference_id := 1; model.ct_reference_id := 2;
            model.type := ORDER_CART |};
       model.client_description := Some "order 1";
       model.payer_statement_description := Some "statement";
       model.legacy_payment :=
         Some {| model.consumer_id := PyInt 3; model.charge_id := PyInt 4;
                 model.stripe_customer_id := PyStr "cus_1" |};
       model.split_payment := None;
       model.created_at := Some 5; model.updated_at := Some 5 |} in
  let w :=
    {| uuid_supply := 1;
       store := {| cart_payments := [("key_1", stored)]; clock := 10 |} |} in
  let w' :=
    snd (update_cart_payment
           (processor Examples.resolve_any Examples.adjust_ok) 0
           Examples.sample_update w) in
  get_by_id 0 (store w) = Some stored
  /\ exists after,
       get_by_id 0 (store w') = Some after
       /\ model.amount after = 700
       /\ model.legacy_payment after = model.legacy_payment stored
       /\ model.payer_statement_description after
          = model.payer_statement_description stored
       /\ model.cart_metadata after = model.cart_metadata stored.
Proof.
  intros stored w w'.
  assert (Hstored : get_by_id 0 (store w) = Some stored) by reflexivity.
  split; [exact Hstored|].
  destruct (update_cart_payment_keeps_omitted_fields
              Examples.resolve_any Examples.adjust_ok 0
              Examples.sample_update w 0 stored Hstored)
    as [(after & Hafter & Hlegacy & _ & Hstatement & Hmeta) _].
  exists after. split; [exact Hafter|]. split.
  - vm_compute in Hafter. injection Hafter as <-. reflexivity.
  - split; [apply Hlegacy; reflexivity|].
    split; [apply Hstatement; reflexivity | apply Hmeta; reflexivity].
Defined.

Lemma create_cart_payment_reraises_witness :
  let proc := processor Examples.resolve_none Examples.adjust_ok in
  let w := {| uuid_supply := 0; store := Examples.empty_repository |} in
  let raised :=
    payment_error PAYMENT_METHOD_GET_NOT_FOUND "payment method not found"
      false in
  submit_payment proc
    (fst (request_to_model Examples.sample_request (uuid_supply w)))
    "key_1" "US" "usd" (Some "order 1") None None (store w)
  = (Raise raised, store w)
  /\ exists exc,
       fst (create_cart_payment proc Examples.sample_request w)
       = Raise (raise_PaymentException exc)
       /\ error_code exc = PAYMENT_METHOD_GET_NOT_FOUND
       /\ retryable exc = false
       /\ http_status_code exc = 400.
Proof.
  intros proc w raised.
  assert (Hraise :
    submit_payment proc
      (fst (request_to_model Examples.sample_request (uuid_supply w)))
      "key_1" "US" "usd" (Some "order 1") None None (store w)
    = (Raise raised, store w)) by reflexivity.
  split; [exact Hraise|].
  destruct (CartPaymentApiFacts.create_cart_payment_reraises
              proc Examples.sample_request w raised (store w) Hraise)
    as (exc & Hexc & Hcode & _ & Hretry & H400 & _).
  exists exc. split; [exact Hexc|]. split; [exact Hcode|].
  split; [exact Hretry|]. apply H400. reflexivity.
Defined.

End CartPaymentCoreFacts.

(** * Properties of transfer submission *)
Module TransferCoreFacts.
Import TransferApi TransferCore.

Section Processor.

Variable idempotency_key_of : Z -> string.
Variable gateway_submit : gateway_call -> gateway_response.

Lemma complete_submission_calls_gateway req t s :
  gateway_calls (snd (complete_submission idempotency_key_of gateway_submit
                        req t s))
  = gateway_calls s
      ++ [ {| g_idempotency_key := idempotency_key_of (t_id t);
              g_amount := t_amount t;
              g_destination := t_payout_account_id t;
              g_descriptor := statement_descriptor req |} ].
Proof.
  unfold complete_submission. destruct (gateway_submit _); reflexivity.
Qed.

(** C8. A [submit_transfer] with [retry] set, on a transfer whose status
    is not ERROR, fails with [InvalidStateTransitionError] and leaves the
    state, the log of gateway calls included, as it was.  On a transfer in
    ERROR the submission moves it to SUBMITTING and goes on to the gateway;
    and a submission with [retry] that returns a payout can only have
    started from ERROR. *)
Theorem submit_transfer_retry_only_from_error
    (transfer_id : Z) (body : SubmitTransfer) (s : Store) (t : Transfer) :
  transfers s !! transfer_id = Some t ->
  b_retry body = true ->
  let req :=
    {| TransferApi.transfer_id := transfer_id;
       retry := b_retry body;
       submitted_by := b_submitted_by body;
       statement_descriptor := b_statement_descriptor body;
       target_type := b_target_type body;
       target_id := b_target_id body;
       method := b_method body |} in
  let run :=
    submit_transfer (processors idempotency_key_of gateway_submit)
      transfer_id body s in
  (t_status t <> ERROR ->
   run = (Raise InvalidStateTransitionError, s)
   /\ gateway_calls (snd run) = gateway_calls s)
  /\ (t_status t = ERROR ->
      exists t' s',
        begin_submission req t s = (Ok t', s')
        /\ t_status t' = SUBMITTING
        /\ transfers s' !! t_id t = Some t'
        /\ gateway_calls s' = gateway_calls s
        /\ run = match complete_submission idempotency_key_of gateway_submit
                         req t' s' with
                 | (Ok p, s'') => (Ok (Payout_of_dict p), s'')
                 | (Raise e, s'') => (Raise e, s'')
                 end)
  /\ (forall payout s', run = (Ok payout, s') -> t_status t = ERROR).
Proof.
  intros Hlookup Hretry req run.
  assert (Hrun :
    run = match begin_submission req t s with
          | (Ok t', s') =>
              match complete_submission idempotency_key_of gateway_submit
                      req t' s' with
              | (Ok p, s'') => (Ok (Payout_of_dict p), s'')
              | (Raise e, s'') => (Raise e, s'')
              end
          | (Raise e, s') => (Raise e, s')
          end).
  { subst run. unfold submit_transfer. cbn [processors_submit_transfer processors].
    unfold submit_transfer_model. fold req. cbn [TransferApi.transfer_id req].
    rewrite Hlookup. cbn [retry req]. rewrite Hretry. cbn [negb andb].
    destruct (begin_submission req t s) as [[t'|e] s']; reflexivity. }
  assert (Hbegin :
    begin_submission req t s
    = if bool_decide (t_status t = ERROR)
      then (Ok (set_status SUBMITTING t), put_transfer (set_status SUBMITTING t) s)
      else (Raise InvalidStateTransitionError, s)).
  { unfold begin_submission. cbn [retry req]. rewrite Hretry. reflexivity. }
  split; [|split].
  - intros Hne. rewrite Hrun, Hbegin, bool_decide_false by assumption.
    split; reflexivity.
  - intros He. exists (set_status SUBMITTING t), (put_transfer (set_status SUBMITTING t) s).
    rewrite Hrun, Hbegin, bool_decide_true by assumption.
    repeat split. cbn. apply lookup_insert_eq.
  - intros payout s' Hok. rewrite Hrun, Hbegin in Hok.
    case_bool_decide; [assumption | discriminate].
Qed.

End Processor.

Lemma submit_transfer_retry_only_from_error_witness :
  let body := Examples.sample_submit_retry in
  let s := Examples.sample_transfers in
  let t := {| t_id := 2; t_payout_account_id := 42; t_amount := 900;
              t_status := CREATED |} in
  transfers s !! 2 = Some t
  /\ b_retry body = true
  /\ (t_status t <> ERROR ->
      submit_transfer
        (processors Examples.sample_key_of Examples.gateway_accepts) 2 body s
      = (Raise InvalidStateTransitionError, s)
      /\ gateway_calls
           (snd (submit_transfer
                   (processors Examples.sample_key_of Examples.gateway_accepts)
                   2 body s))
         = gateway_calls s).
Proof.
  intros body s t.
  assert (H1 : transfers s !! 2 = Some t) by reflexivity.
  assert (H2 : b_retry body = true) by reflexivity.
  split; [exact H1|]. split; [exact H2|].
  exact (proj1 (submit_transfer_retry_only_from_error
                  Examples.sample_key_of Examples.gateway_accepts
                  2 body s t H1 H2)).
Defined.

End TransferCoreFacts.

(** * Further properties of the bank-update history repository *)
Module BankDBMore.
Import BankDB BankDBSpec BankDBFacts.

(** ** Selections over a table that grows *)

Lemma record_bank_update_eq now data db :
  record_bank_update now data db
  = (Ok {| id := id_seq db; timestamp := now;
           payment_account_id := c_payment_account_id data;
           owner_type := c_owner_type data; change := c_change data |},
     {| rows := rows db
                ++ [ {| id := id_seq db; timestamp := now;
                        payment_account_id := c_payment_account_id data;
                        owner_type := c_owner_type data;
                        change := c_change data |} ];
        id_seq := id_seq db + 1 |}).
Proof. reflexivity. Qed.

Lemma filter_snoc_false {A} (f : A -> bool) (l : list A) (x : A) :
  f x = false -> List.filter f (l ++ [x]) = List.filter f l.
Proof.
  intros Hx. rewrite List.filter_app. cbn. rewrite Hx. apply app_nil_r.
Qed.

Lemma holds_ge_timestamp (t : datetime) (r : PaymentAccountEditHistory) :
  holds (and_ [ ge_ col_timestamp (VTime t) ]) r = true <-> t <= timestamp r.
Proof.
  unfold holds. rewrite bool_decide_eq_true. cbn.
  destruct (Z.compare_spec (timestamp r) t); cbn;
    (split; [first [discriminate | intros _; lia]
            | intros ?; first [reflexivity | lia]]).
Qed.

(** ** [DISTINCT ON] *)

Lemma elem_of_distinct_on c seen l r :
  r ∈ distinct_on c seen l -> r ∈ l /\ col c r ∉ seen.
Proof.
  revert seen. induction l as [|x l IH]; intros seen; cbn [distinct_on].
  - intros H. apply elem_of_nil in H. contradiction.
  - case_bool_decide as Hseen.
    + intros H. apply IH in H as [H1 H2]. split; [|exact H2].
      apply elem_of_cons. right. exact H1.
    + intros H. apply elem_of_cons in H as [->|H].
      * split; [apply elem_of_cons; left; reflexivity | exact Hseen].
      * apply IH in H as [H1 H2]. split.
        -- apply elem_of_cons. right. exact H1.
        -- intros Hin. apply H2. apply elem_of_cons. right. exact Hin.
Qed.

Lemma distinct_on_covers c seen l r :
  r ∈ l -> col c r ∉ seen ->
  exists r', r' ∈ distinct_on c seen l /\ col c r' = col c r.
Proof.
  revert seen. induction l as [|x l IH]; intros seen Hr Hseen.
  - apply elem_of_nil in Hr. contradiction.
  - cbn [distinct_on]. apply elem_of_cons in Hr as [->|Hr].
    + rewrite bool_decide_false by exact Hseen.
      exists x. split; [apply elem_of_cons; left|]; reflexivity.
    + case_bool_decide as Hx.
      * apply IH; assumption.
      * destruct (decide (col c r = col c x)) as [Heq|Hne].
        -- exists x. split; [apply elem_of_cons; left; reflexivity|].
           symmetry. exact Heq.
        -- destruct (IH (col c x :: seen) Hr) as (r' & Hr' & Hc).
           { intros Hin. apply elem_of_cons in Hin as [?|?]; contradiction. }
           exists r'. split; [apply elem_of_cons; right|]; assumption.
Qed.

Lemma NoDup_distinct_on c seen l :
  NoDup (map (col c) (distinct_on c seen l)).
Proof.
  revert seen. induction l as [|x l IH]; intros seen; cbn [distinct_on].
  - apply NoDup_nil_2.
  - case_bool_decide as Hx; [apply IH|].
    cbn [map]. apply NoDup_cons_2; [|apply IH].
    intros Hin. apply list_elem_of_fmap in Hin as (r' & Hc & Hr').
    apply elem_of_distinct_on in Hr' as [_ Hnot]. apply Hnot.
    rewrite <- Hc. apply elem_of_cons. left. reflexivity.
Qed.

Lemma col_payment_account_id_inj r r' :
  col col_payment_account_id r = col col_payment_account_id r' ->
  payment_account_id r = payment_account_id r'.
Proof.
  cbn. destruct (payment_account_id r), (payment_account_id r'); cbn;
    congruence.
Qed.

(** The ids the query for recently updated accounts returns. *)
Lemma recent_ids_spec (t : datetime) (db : Database) (x : option Z) :
  x ∈ map payment_account_id
        (distinct_on col_payment_account_id []
           (List.filter (holds (and_ [ ge_ col_timestamp (VTime t) ]))
              (rows db)))
  <-> exists r, r ∈ rows db /\ payment_account_id r = x /\ t <= timestamp r.
Proof.
  split.
  - intros H. apply list_elem_of_fmap in H as (r & -> & Hr).
    apply elem_of_distinct_on in Hr as [Hr _].
    apply list_elem_of_In, filter_In in Hr as [Hr Hh].
    exists r. split; [apply list_elem_of_In; exact Hr|].
    split; [reflexivity | apply holds_ge_timestamp; exact Hh].
  - intros (r & Hr & Hx & Ht).
    destruct (distinct_on_covers col_payment_account_id []
                (List.filter (holds (and_ [ ge_ col_timestamp (VTime t) ]))
                   (rows db)) r) as (r' & Hr' & Hc).
    + apply list_elem_of_In, filter_In. split.
      * apply list_elem_of_In. exact Hr.
      * apply holds_ge_timestamp. exact Ht.
    + apply not_elem_of_nil.
    + apply list_elem_of_fmap. exists r'. split; [|exact Hr'].
      rewrite <- Hx. symmetry. apply col_payment_account_id_inj. exact Hc.
Qed.

(** ** Recently updated accounts *)

(** X1. [get_recent_bank_update_payment_account_ids] returns a value
    (an account id, or [None] for rows without one) exactly when a stored
    entry with that account id has a timestamp at or after the given time;
    no value is returned twice, and the database is left as it was. *)
Theorem recent_account_ids_exact (t : datetime) (db : Database) :
  exists ids,
    get_recent_bank_update_payment_account_ids t db = (Ok ids, db)
    /\ (forall x, x ∈ ids <->
          exists r, r ∈ rows db /\ payment_account_id r = x
                    /\ t <= timestamp r)
    /\ NoDup ids.
Proof.
  eexists. split; [reflexivity|]. split.
  - intros x. apply recent_ids_spec.
  - apply (NoDup_fmap_1 (from_option VInt VNull)).
    rewrite <- list_fmap_compose.
    apply (NoDup_distinct_on col_payment_account_id).
Qed.



(** ** The most recent update *)

(** X3. [get_most_recent_bank_update] raises exactly when a non-zero
    [within_last_timedelta] takes the cutoff out of the range of
    [datetime], and what it raises is [OverflowError]; the database is not
    touched. *)
Theorem get_most_recent_bank_update_raises
    (now : datetime) (a : Z) (within_last_timedelta : option timedelta)
    (db : Database) :
  (forall e,
     fst (get_most_recent_bank_update now a within_last_timedelta db)
     = Raise e ->
     e = OverflowError)
  /\ (fst (get_most_recent_bank_update now a within_last_timedelta db)
      = Raise OverflowError
      <-> exists delta,
            within_last_timedelta = Some delta /\ delta <> 0
            /\ ~ (0 <= now - delta <= datetime_max)).
Proof.
  unfold get_most_recent_bank_update, datetime_sub.
  destruct within_last_timedelta as [delta|].
  - destruct (Z.eqb_spec delta 0) as [->|Hnz].
    + split; [intros e; discriminate|].
      split; [discriminate|]. intros (d & [= <-] & Hd & _). contradiction.
    + case_bool_decide as Hr.
      * split; [intros e; discriminate|].
        split; [discriminate|]. intros (d & [= <-] & _ & Hd). contradiction.
      * split; [intros e [= <-]; reflexivity|].
        split; [|reflexivity]. intros _. exists delta. auto.
  - split; [intros e; discriminate|].
    split; [discriminate|]. intros (d & Hd & _). discriminate.
Qed.

(** X4. A window never changes which timestamp is the most recent: when
    the query with [within_last_timedelta] returns an entry, the query
    without it returns an entry with the same timestamp. *)
Theorem window_keeps_latest_timestamp
    (now : datetime) (a : Z) (delta : timedelta) (db : Database)
    (e : PaymentAccountEditHistory) :
  fst (get_most_recent_bank_update now a (Some delta) db) = Ok (Some e) ->
  exists e',
    fst (get_most_recent_bank_update now a None db) = Ok (Some e')
    /\ timestamp e' = timestamp e.
Proof.
  unfold get_most_recent_bank_update.
  destruct (Z.eqb_spec delta 0) as [->|Hnz].
  - intros H. exists e. split; [exact H | reflexivity].
  - destruct (datetime_sub now delta) as [since|]; [|discriminate].
    unfold fetch_one, execute. cbn [fst]. intros [= Hwin].
    pose proof (head_sorted_selection _ _ (rows db)
                  (holds_account_since_query a since)) as Hw.
    rewrite Hwin in Hw. destruct Hw as (Hin & [Ha Hs] & Hmaxw). clear Hwin.
    pose proof (head_sorted_selection _ _ (rows db)
                  (holds_account_query a)) as Hall.
    destruct (head _) as [e'|].
    + destruct Hall as (Hin' & Ha' & Hmax).
      exists e'. split; [reflexivity|].
      pose proof (Hmax e Hin Ha).
      assert (timestamp e' <= timestamp e); [|lia].
      apply Hmaxw; [exact Hin'|]. split; [exact Ha' | lia].
    + destruct (Hall e Hin Ha).
Qed.

Lemma window_keeps_latest_timestamp_witness :
  let old := {| id := 1; timestamp := 100; payment_account_id := Some 7;
                owner_type := Some STORE; change := [] |} in
  let new := {| id := 2; timestamp := 200; payment_account_id := Some 7;
                owner_type := None; change := [] |} in
  let db := {| rows := [old; new]; id_seq := 3 |} in
  fst (get_most_recent_bank_update 1000 7 (Some 850) db) = Ok (Some new)
  /\ exists e',
       fst (get_most_recent_bank_update 1000 7 None db) = Ok (Some e')
       /\ timestamp e' = 200.
Proof.
  intros old new db.
  assert (H : fst (get_most_recent_bank_update 1000 7 (Some 850) db)
              = Ok (Some new)) by reflexivity.
  split; [exact H|].
  exact (window_keeps_latest_timestamp 1000 7 850 db new H).
Defined.



(** X6. Storing an update of one account does not change the most recent
    update of any other account. *)
Theorem record_keeps_other_accounts
    (now now' : datetime) (a : Z) (within_last_timedelta : option timedelta)
    (data : PaymentAccountEditHistoryCreate) (db : Database) :
  c_payment_account_id data <> Some a ->
  fst (get_most_recent_bank_update now' a within_last_timedelta
         (snd (record_bank_update now data db)))
  = fst (get_most_recent_bank_update now' a within_last_timedelta db).
Proof.
  intros Hne.
  assert (Hsame : forall (q : BooleanClauseList)
                         (Q : PaymentAccountEditHistory -> Prop),
            (forall r, holds q r = true <-> Q r) ->
            (forall r, Q r -> payment_account_id r = Some a) ->
            fst (fetch_one (select_where_order_by_desc q col_timestamp)
                   (snd (record_bank_update now data db)))
            = fst (fetch_one (select_where_order_by_desc q col_timestamp) db)).
  { intros q Q HQ HQa. rewrite record_bank_update_eq.
    unfold fetch_one, execute. cbn [fst snd rows].
    rewrite filter_snoc_false; [reflexivity|].
    destruct (holds q _) eqn:E; [|reflexivity].
    apply HQ, HQa in E. cbn in E. contradiction. }
  unfold get_most_recent_bank_update.
  destruct within_last_timedelta as [delta|].
  - destruct (delta =? 0).
    + apply (Hsame _ _ (holds_account_query a)). auto.
    + destruct (datetime_sub now' delta) as [since|]; [|reflexivity].
      apply (Hsame _ _ (holds_account_since_query a since)).
      intros r [? _]. assumption.
  - apply (Hsame _ _ (holds_account_query a)). auto.
Qed.

Lemma record_keeps_other_accounts_witness :
  let old := {| id := 1; timestamp := 100; payment_account_id := Some 7;
                owner_type := Some STORE; change := [] |} in
  let db := {| rows := [old]; id_seq := 2 |} in
  let data := {| c_timestamp := None; c_payment_account_id := Some 8;
                 c_owner_type := Some STORE; c_change := [] |} in
  Some 8 <> Some 7
  /\ fst (get_most_recent_bank_update 1000 7 None
            (snd (record_bank_update 200 data db)))
     = fst (get_most_recent_bank_update 1000 7 None db).
Proof.
  intros old db data. assert (H : Some 8 <> Some 7) by discriminate.
  split; [exact H|].
  exact (record_keeps_other_accounts 200 1000 7 None data db H).
Defined.

(** X7. The test [payment_account_id IS NOT NULL] of the most-recent query
    adds nothing to the comparison with the account id: with or without
    it the same rows are selected, rows without an account id never. *)
Theorem isnot_None_is_implied (a : Z) (r : PaymentAccountEditHistory) :
  holds (and_ [ isnot_None col_payment_account_id;
                eq_ col_payment_account_id (VInt a) ]) r
  = holds (and_ [ eq_ col_payment_account_id (VInt a) ]) r
  /\ (payment_account_id r = None ->
      holds (and_ [ isnot_None col_payment_account_id;
                    eq_ col_payment_account_id (VInt a) ]) r = false).
Proof.
  unfold holds. cbn.
  destruct (payment_account_id r) as [b|]; cbn.
  - split; [|intros [=]].
    rewrite (bool_decide_true (VInt b <> VNull)) by discriminate.
    destruct (bool_decide (VInt b = VInt a)); reflexivity.
  - split; reflexivity.
Qed.

(** ** The time range *)


(** X9. With [start_time] after [end_time] the time-range query returns
    the empty list. *)
Theorem time_range_inverted_is_empty
    (a : Z) (start_time end_time : datetime) (db : Database) :
  end_time < start_time ->
  get_bank_updates_for_store_with_payment_account_and_time_range
    a start_time end_time db = (Ok [], db).
Proof.
  intros Hinv.
  unfold get_bank_updates_for_store_with_payment_account_and_time_range,
    fetch_all, execute.
  rewrite (filter_bool_prop _ (store_update_in_range a start_time end_time))
    by apply holds_time_range_query.
  assert (Hnil : filter (store_update_in_range a start_time end_time) (rows db)
                 = []).
  { induction (rows db) as [|r l IH]; [reflexivity|].
    rewrite filter_cons_False; [exact IH|].
    intros (_ & _ & ?). lia. }
  rewrite Hnil. reflexivity.
Qed.

Lemma time_range_inverted_is_empty_witness :
  let r := {| id := 1; timestamp := 100; payment_account_id := Some 7;
              owner_type := Some STORE; change := [] |} in
  let db := {| rows := [r]; id_seq := 2 |} in
  50 < 150
  /\ get_bank_updates_for_store_with_payment_account_and_time_range
       7 150 50 db = (Ok [], db).
Proof.
  intros r db. assert (H : 50 < 150) by lia.
  split; [exact H|]. exact (time_range_inverted_is_empty 7 150 50 db H).
Defined.

(** X10. Whatever the time-range query returns for an account is no later
    than the account's most recent update: when the range query returns an
    entry, [get_most_recent_bank_update] returns one whose timestamp is at
    least as late. *)
Theorem time_range_bounded_by_most_recent
    (now : datetime) (a : Z) (start_time end_time : datetime) (db : Database)
    (l : list PaymentAccountEditHistory) (r : PaymentAccountEditHistory) :
  fst (get_bank_updates_for_store_with_payment_account_and_time_range
         a start_time end_time db) = Ok l ->
  r ∈ l ->
  exists m,
    fst (get_most_recent_bank_update now a None db) = Ok (Some m)
    /\ timestamp r <= timestamp m.
Proof.
  unfold get_bank_updates_for_store_with_payment_account_and_time_range,
    fetch_all, execute.
  rewrite (filter_bool_prop _ (store_update_in_range a start_time end_time))
    by apply holds_time_range_query.
  intros Hl Hr.
  assert (Hin : r ∈ filter (store_update_in_range a start_time end_time)
                     (rows db)).
  { destruct (filter _ (rows db)) eqn:E; cbn in Hl; injection Hl as <-;
      exact Hr. }
  apply list_elem_of_filter in Hin as [(Ha & _) Hrows].
  unfold get_most_recent_bank_update, fetch_one, execute. cbn [fst].
  pose proof (head_sorted_selection _ _ (rows db) (holds_account_query a))
    as H.
  destruct (head _) as [m|].
  - destruct H as (_ & _ & Hmax). exists m. split; [reflexivity|].
    apply Hmax; assumption.
  - destruct (H r Hrows Ha).
Qed.

Lemma time_range_bounded_by_most_recent_witness :
  let old := {| id := 1; timestamp := 100; payment_account_id := Some 7;
                owner_type := Some STORE; change := [] |} in
  let new := {| id := 2; timestamp := 200; payment_account_id := Some 7;
                owner_type := None; change := [] |} in
  let db := {| rows := [old; new]; id_seq := 3 |} in
  fst (get_bank_updates_for_store_with_payment_account_and_time_range
         7 50 150 db) = Ok [old]
  /\ exists m,
       fst (get_most_recent_bank_update 1000 7 None db) = Ok (Some m)
       /\ 100 <= timestamp m.
Proof.
  intros old new db.
  assert (H : fst (get_bank_updates_for_store_with_payment_account_and_time_range
                     7 50 150 db) = Ok [old]) by reflexivity.
  split; [exact H|].
  apply (time_range_bounded_by_most_recent 1000 7 50 150 db [old] old H).
  apply list_elem_of_singleton. reflexivity.
Defined.

End BankDBMore.

(** * Further properties of the cart-payment adapter *)
Module CartPaymentApiMore.
Import CartPaymentApi CartPaymentApiSpec.

Lemma request_to_model_ignores_fee (fee : pyval)
    (r : CreateCartPaymentRequest.t) (supply : Z) :
  request_to_model (with_application_fee_amount fee r) supply
  = request_to_model r supply.
Proof.
  unfold request_to_model, with_application_fee_amount. cbn.
  destruct (CreateCartPaymentRequest.split_payment r); reflexivity.
Qed.

(** X11. The application fee amount of a request never reaches the
    processor: for any processor, a creation request gives the same
    result and the same state whatever fee its split payment names. *)
Theorem create_cart_payment_ignores_fee {S : Type}
    (cart_payment_processor : CartPaymentProcessor S)
    (fee : pyval) (cart_payment_request : CreateCartPaymentRequest.t)
    (w : World S) :
  create_cart_payment cart_payment_processor
    (with_application_fee_amount fee cart_payment_request) w
  = create_cart_payment cart_payment_processor cart_payment_request w.
Proof.
  unfold create_cart_payment. rewrite request_to_model_ignores_fee.
  reflexivity.
Qed.

(** X12. Whatever the processor does, [create_cart_payment] either returns
    the cart payment the processor returned or raises a
    [PaymentException] whose status is 400, 403 or 500; a [PaymentError]
    never leaves it as such.  Either way one identifier of the supply is
    used. *)
Theorem create_cart_payment_outcomes {S : Type}
    (cart_payment_processor : CartPaymentProcessor S)
    (cart_payment_request : CreateCartPaymentRequest.t) (w : World S) :
  let out := create_cart_payment cart_payment_processor cart_payment_request w
  in
  uuid_supply (snd out) = uuid_supply w + 1
  /\ match fst out with
     | Ok cart_payment =>
         exists request_cart_payment,
           model.id request_cart_payment = uuid_supply w
           /\ fst (submit_payment cart_payment_processor request_cart_payment
                     (CreateCartPaymentRequest.idempotency_key
                        cart_payment_request)
                     (CreateCartPaymentRequest.country cart_payment_request)
                     (CreateCartPaymentRequest.currency cart_payment_request)
                     (CreateCartPaymentRequest.client_description
                        cart_payment_request)
                     (CreateCartPaymentRequest.payer_id_type
                        cart_payment_request)
                     (CreateCartPaymentRequest.payment_method_id_type
                        cart_payment_request)
                     (store w))
              = Ok cart_payment
     | Raise (raise_PaymentException exc) =>
         http_status_code exc = 400 \/ http_status_code exc = 403
         \/ http_status_code exc = 500
     | Raise (raise_PaymentError _) => False
     end.
Proof.
  cbv zeta. unfold create_cart_payment.
  destruct (request_to_model cart_payment_request (uuid_supply w))
    as [m supply'] eqn:Hm.
  assert (Hid : model.id m = uuid_supply w /\ supply' = uuid_supply w + 1).
  { unfold request_to_model, uuid4 in Hm. injection Hm as <- <-.
    split; reflexivity. }
  destruct Hid as [Hid ->].
  destruct (submit_payment _ _ _ _ _ _ _ _ _) as [[cp|pe] st] eqn:Hsub;
    cbn [fst snd uuid_supply].
  - split; [reflexivity|]. exists m. split; [exact Hid|].
    rewrite Hsub. reflexivity.
  - split; [reflexivity|]. cbn [http_status_code].
    repeat case_decide; auto.
Qed.

(** X13. [update_cart_payment] translates nothing: a [PaymentError] of the
    processor leaves it as that same [PaymentError], never as a
    [PaymentException], a cart payment is returned as the processor gave
    it, and the supply of identifiers is not used. *)
Theorem update_cart_payment_outcomes {S : Type}
    (cart_payment_processor : CartPaymentProcessor S)
    (cart_payment_id : UUID)
    (cart_payment_request : UpdateCartPaymentRequest.t) (w : World S) :
  let out :=
    update_cart_payment cart_payment_processor cart_payment_id
      cart_payment_request w in
  let called :=
    update_payment cart_payment_processor
      (UpdateCartPaymentRequest.idempotency_key cart_payment_request)
      cart_payment_id
      (UpdateCartPaymentRequest.payer_id cart_payment_request)
      (UpdateCartPaymentRequest.amount cart_payment_request)
      (get_legacy_payment_model cart_payment_request)
      (UpdateCartPaymentRequest.client_description cart_payment_request)
      (UpdateCartPaymentRequest.payer_statement_description
         cart_payment_request)
      (get_cart_payment_metadata_model cart_payment_request)
      (store w) in
  uuid_supply (snd out) = uuid_supply w
  /\ store (snd out) = snd called
  /\ (forall exc, fst out <> Raise (raise_PaymentException exc))
  /\ (forall cart_payment,
        fst out = Ok cart_payment <-> fst called = Ok cart_payment)
  /\ (forall payment_error,
        fst out = Raise (raise_PaymentError payment_error)
        <-> fst called = Raise payment_error).
Proof.
  cbv zeta. unfold update_cart_payment.
  destruct (update_payment _ _ _ _ _ _ _ _ _ _) as [[cp|pe] st];
    cbn [fst snd uuid_supply store];
    repeat split; try discriminate; congruence.
Qed.

(** X14. The two routes translate the same sections alike, but for an
    absent legacy payment: from one metadata section both build the same
    [CartMetadata]; from one legacy payment section both build the same
    [LegacyPayment]; without that section a creation builds a
    [LegacyPayment] of [None] fields where an update passes [None]. *)
Theorem create_and_update_translate_alike
    (created : CreateCartPaymentRequest.t)
    (updated : UpdateCartPaymentRequest.t) (supply : Z) :
  UpdateCartPaymentRequest.legacy_payment updated
  = CreateCartPaymentRequest.legacy_payment created ->
  UpdateCartPaymentRequest.metadata updated
  = Some (CreateCartPaymentRequest.metadata created) ->
  let built := fst (request_to_model created supply) in
  get_cart_payment_metadata_model updated = Some (model.cart_metadata built)
  /\ match CreateCartPaymentRequest.legacy_payment created with
     | Some _ => get_legacy_payment_model updated = model.legacy_payment built
     | None =>
         get_legacy_payment_model updated = None
         /\ model.legacy_payment built
            = Some {| model.consumer_id := PyNone;
                      model.charge_id := PyNone;
                      model.stripe_customer_id := PyNone |}
     end.
Proof.
  intros Hl Hm. cbv zeta.
  unfold get_cart_payment_metadata_model, get_legacy_payment_model.
  rewrite Hl, Hm. unfold request_to_model. cbn.
  split; [reflexivity|].
  destruct (CreateCartPaymentRequest.legacy_payment created);
    [reflexivity | split; reflexivity].
Qed.

Lemma create_and_update_translate_alike_witness :
  let legacy :=
    {| request.consumer_id := PyInt 3; request.charge_id := PyInt 4;
       request.stripe_customer_id := PyStr "cus_1" |} in
  let meta :=
    {| request.reference_id := 1; request.ct_reference_id := 2;
       request.type := ORDER_CART |} in
  let created :=
    {| CreateCartPaymentRequest.payer_id := "payer_1";
       CreateCartPaymentRequest.amount := 500;
       CreateCartPaymentRequest.payment_method_id := "pm_1";
       CreateCartPaymentRequest.capture_method := "auto";
       CreateCartPaymentRequest.metadata := meta;
       CreateCartPaymentRequest.client_description := None;
       CreateCartPaymentRequest.payer_statement_description := None;
       CreateCartPaymentRequest.legacy_payment := Some legacy;
       CreateCartPaymentRequest.split_payment := None;
       CreateCartPaymentRequest.idempotency_key := "key_1";
       CreateCartPaymentRequest.country := "US";
       CreateCartPaymentRequest.currency := "usd";
       CreateCartPaymentRequest.payer_id_type := None;
       CreateCartPaymentRequest.payment_method_id_type := None |} in
  let updated :=
    {| UpdateCartPaymentRequest.idempotency_key := "key_2";
       UpdateCartPaymentRequest.payer_id := "payer_1";
       UpdateCartPaymentRequest.amount := 700;
       UpdateCartPaymentRequest.client_description := None;
       UpdateCartPaymentRequest.payer_statement_description := None;
       UpdateCartPaymentRequest.legacy_payment := Some legacy;
       UpdateCartPaymentRequest.metadata := Some meta |} in
  get_cart_payment_metadata_model updated
  = Some (model.cart_metadata (fst (request_to_model created 0)))
  /\ get_legacy_payment_model updated
     = model.legacy_payment (fst (request_to_model created 0)).
Proof.
  intros legacy meta created updated.
  exact (create_and_update_translate_alike created updated 0
           eq_refl eq_refl).
Defined.

End CartPaymentApiMore.

(** * Properties of the transfer routes *)
Module TransferApiMore.
Import TransferApi.

(** X15. [submit_transfer] hands the processor everything it is called
    with: two calls that no processor can tell apart have the same
    transfer id and the same body. *)
Theorem submit_transfer_forwards_everything
    (transfer_id transfer_id' : Z) (body body' : SubmitTransfer) :
  (forall (S E : Type) (transfer_processors : TransferProcessors S E) (s : S),
     submit_transfer transfer_processors transfer_id body s
     = submit_transfer transfer_processors transfer_id' body' s)
  <-> transfer_id = transfer_id' /\ body = body'.
Proof.
  split.
  - intros H.
    specialize (H unit SubmitTransferRequest
                  {| processors_submit_transfer :=
                       fun req s => (Raise req, s) |} tt).
    unfold submit_transfer in H. cbn in H.
    destruct body, body'. cbn in H. injection H as -> -> -> -> -> -> ->.
    split; reflexivity.
  - intros [-> ->]. reflexivity.
Qed.

(** X16. [create_transfer] hands the processor every field of the body:
    two bodies that no processor can tell apart are the same. *)
Theorem create_transfer_forwards_everything
    (body body' : TransferCreateApi.CreateTransfer) :
  (forall (S E R : Type)
          (processors_create_transfer :
             TransferCreateApi.CreateTransferRequest -> S -> result E R * S)
          (s : S),
     TransferCreateApi.create_transfer processors_create_transfer
       (fun r => r) body s
     = TransferCreateApi.create_transfer processors_create_transfer
         (fun r => r) body' s)
  <-> body = body'.
Proof.
  split.
  - intros H.
    specialize (H unit TransferCreateApi.CreateTransferRequest unit
                  (fun req s => (Raise req, s)) tt).
    unfold TransferCreateApi.create_transfer in H. cbn in H.
    destruct body, body'. cbn in H.
    injection H as -> -> -> -> -> -> -> -> ->. reflexivity.
  - intros ->. reflexivity.
Qed.

End TransferApiMore.

(** * The payout-request entities against their table *)
Module StripePayoutRequestFacts.
Import StripePayoutRequestModel.

(** X17. [StripePayoutRequest] has one field for every column of
    [stripe_payout_requests] and no other; a field has the Python type of
    its column and is [Optional] exactly when the column is nullable or
    filled by the server; and the only column [StripePayoutRequestCreate]
    leaves out, [id], is one the server fills. *)
Theorem StripePayoutRequest_matches_table :
  map f_name StripePayoutRequest ≡ₚ map col_name StripePayoutRequestTable
  /\ NoDup (map col_name StripePayoutRequestTable)
  /\ (forall f c,
        f ∈ StripePayoutRequest -> c ∈ StripePayoutRequestTable ->
        f_name f = col_name c ->
        f_type f = python_type (col_type c)
        /\ f_optional f = is_nullable c || has_server_default c)
  /\ (forall c,
        c ∈ StripePayoutRequestTable ->
        col_name c ∉ map f_name StripePayoutRequestCreate ->
        col_name c = "id" /\ has_server_default c = true).
Proof.
  split; [|split; [|split]].
  - apply (bool_decide_unpack _). vm_compute. exact I.
  - apply (bool_decide_unpack _). vm_compute. exact I.
  - assert (H : Forall (fun f =>
                  Forall (fun c =>
                            f_name f = col_name c ->
                            f_type f = python_type (col_type c)
                            /\ f_optional f
                               = is_nullable c || has_server_default c)
                         StripePayoutRequestTable)
                  StripePayoutRequest).
    { apply (bool_decide_unpack _). vm_compute. exact I. }
    intros f c Hf Hc.
    rewrite Forall_forall in H. specialize (H f Hf).
    rewrite Forall_forall in H. exact (H c Hc).
  - assert (H : Forall (fun c =>
                  col_name c ∉ map f_name StripePayoutRequestCreate ->
                  col_name c = "id" /\ has_server_default c = true)
                  StripePayoutRequestTable).
    { apply (bool_decide_unpack _). vm_compute. exact I. }
    intros c Hc. rewrite Forall_forall in H. exact (H c Hc).
Qed.

End StripePayoutRequestFacts.
